(** * Evidence chain of custody of the Android collector

    A shallow embedding of the evidence-chain functions of
    [collector/views.py] (digest engine, recorder, ledger, verifier and
    report assembler) together with the properties of the chain that
    hold on the code. *)

From Stdlib Require Import ZArith List String Ascii Bool Lia.
From Stdlib Require Strings.Byte.
From Stdlib Require Import DecimalString.
From stdpp Require Import base gmap strings.
Import ListNotations.

Local Open Scope Z_scope.
Local Open Scope string_scope.

(** ** The digests of [hashlib]

    [calculate_hash] asks [hashlib] for MD5, SHA-1 and SHA-256.  The three
    functions are written out over bytes held as [Z], 32-bit words with
    their wrap-around explicit. *)

Module Hashlib.

Definition mask32 (x : Z) : Z := x mod 2 ^ 32.
Definition add32 (x y : Z) : Z := mask32 (x + y).
Definition not32 (x : Z) : Z := Z.lxor x (2 ^ 32 - 1).
Definition rotl32 (n x : Z) : Z :=
  Z.lor (mask32 (Z.shiftl x n)) (Z.shiftr x (32 - n)).
Definition rotr32 (n x : Z) : Z := rotl32 (32 - n) x.

Definition byte_at (x : Z) (i : nat) : Z :=
  Z.land (Z.shiftr x (8 * Z.of_nat i)) 255.

(** [k] bytes of [x], least significant first, and most significant first. *)
Definition le_bytes (k : nat) (x : Z) : list Z := map (byte_at x) (seq 0 k).
Definition be_bytes (k : nat) (x : Z) : list Z := rev (le_bytes k x).

Definition be_word (bs : list Z) : Z := fold_left (fun acc b => acc * 256 + b) bs 0.
Definition le_word (bs : list Z) : Z := be_word (rev bs).

(** [n] consecutive groups of [k] elements. *)
Fixpoint group {A : Type} (k n : nat) (l : list A) : list (list A) :=
  match n with
  | O => []
  | S n' => firstn k l :: group k n' (skipn k l)
  end.

Definition zero_fill (len : nat) : nat := ((64 - (len + 9) mod 64) mod 64)%nat.

(** Message padding: a 1 bit, zeros, then the bit length on 8 bytes. *)
Definition pad (len_bytes : nat -> Z -> list Z) (msg : list Z) : list Z :=
  msg ++ [128] ++ repeat 0 (zero_fill (length msg))
      ++ len_bytes 8%nat (8 * Z.of_nat (length msg)).

Definition blocks (word : list Z -> Z) (padded : list Z) : list (list Z) :=
  map (fun blk => map word (group 4 16 blk))
      (group 64 (length padded / 64) padded).

(** Constant tables are kept as hexadecimal text, eight digits a word. *)
Definition hex_alphabet : list ascii := list_ascii_of_string "0123456789abcdef".

Fixpoint index_of (c : ascii) (l : list ascii) : Z :=
  match l with
  | [] => 0
  | d :: r => if Ascii.eqb c d then 0 else 1 + index_of c r
  end.

Definition hex_value (s : list ascii) : Z :=
  fold_left (fun acc c => acc * 16 + index_of c hex_alphabet) s 0.

Definition hex_words (s : string) : list Z :=
  let cs := list_ascii_of_string s in
  map hex_value (group 8 (length cs / 8) cs).

Definition hex_digit (n : Z) : ascii := nth (Z.to_nat n) hex_alphabet "0"%char.

(** [bytes.hex()]: two lowercase digits a byte. *)
Fixpoint hexlify (bs : list Z) : string :=
  match bs with
  | [] => EmptyString
  | b :: r =>
      String (hex_digit (Z.land (Z.shiftr b 4) 15))
        (String (hex_digit (Z.land b 15)) (hexlify r))
  end.

(** *** SHA-256 *)

Definition sha256_K : list Z := hex_words
  ("428a2f9871374491b5c0fbcfe9b5dba53956c25b59f111f1923f82a4ab1c5ed5" ++
   "d807aa9812835b01243185be550c7dc372be5d7480deb1fe9bdc06a7c19bf174" ++
   "e49b69c1efbe47860fc19dc6240ca1cc2de92c6f4a7484aa5cb0a9dc76f988da" ++
   "983e5152a831c66db00327c8bf597fc7c6e00bf3d5a7914706ca635114292967" ++
   "27b70a852e1b21384d2c6dfc53380d13650a7354766a0abb81c2c92e92722c85" ++
   "a2bfe8a1a81a664bc24b8b70c76c51a3d192e819d6990624f40e3585106aa070" ++
   "19a4c1161e376c082748774c34b0bcb5391c0cb34ed8aa4a5b9cca4f682e6ff3" ++
   "748f82ee78a5636f84c878148cc7020890befffaa4506cebbef9a3f7c67178f2").

Definition word8 : Type := Z * Z * Z * Z * Z * Z * Z * Z.

Definition sha256_init : word8 :=
  (0x6a09e667, 0xbb67ae85, 0x3c6ef372, 0xa54ff53a,
   0x510e527f, 0x9b05688c, 0x1f83d9ab, 0x5be0cd19).

Definition ssig0 x := Z.lxor (Z.lxor (rotr32 7 x) (rotr32 18 x)) (Z.shiftr x 3).
Definition ssig1 x := Z.lxor (Z.lxor (rotr32 17 x) (rotr32 19 x)) (Z.shiftr x 10).
Definition bsig0 x := Z.lxor (Z.lxor (rotr32 2 x) (rotr32 13 x)) (rotr32 22 x).
Definition bsig1 x := Z.lxor (Z.lxor (rotr32 6 x) (rotr32 11 x)) (rotr32 25 x).
Definition ch x y z := Z.lxor (Z.land x y) (Z.land (not32 x) z).
Definition maj x y z := Z.lxor (Z.lxor (Z.land x y) (Z.land x z)) (Z.land y z).

Definition back (w : list Z) (i : nat) : Z := nth (length w - i) w 0.

Fixpoint sha256_schedule (n : nat) (w : list Z) : list Z :=
  match n with
  | O => w
  | S n' =>
      sha256_schedule n'
        (w ++ [add32 (add32 (ssig1 (back w 2)) (back w 7))
                     (add32 (ssig0 (back w 15)) (back w 16))])
  end.

Definition sha256_round (s : word8) (kw : Z * Z) : word8 :=
  let '(a, b, c, d, e, f, g, h) := s in
  let t1 := add32 (add32 (add32 h (bsig1 e)) (add32 (ch e f g) (fst kw))) (snd kw) in
  let t2 := add32 (bsig0 a) (maj a b c) in
  (add32 t1 t2, a, b, c, add32 d t1, e, f, g).

Definition sha256_compress (s : word8) (blk : list Z) : word8 :=
  let '(a, b, c, d, e, f, g, h) := s in
  let '(a', b', c', d', e', f', g', h') :=
    fold_left sha256_round (combine sha256_K (sha256_schedule 48 blk)) s in
  (add32 a a', add32 b b', add32 c c', add32 d d',
   add32 e e', add32 f f', add32 g g', add32 h h').

Definition sha256 (msg : list Z) : list Z :=
  let '(a, b, c, d, e, f, g, h) :=
    fold_left sha256_compress (blocks be_word (pad be_bytes msg)) sha256_init in
  flat_map (be_bytes 4) [a; b; c; d; e; f; g; h].

(** *** SHA-1 *)

Definition word5 : Type := Z * Z * Z * Z * Z.

Definition sha1_init : word5 :=
  (0x67452301, 0xefcdab89, 0x98badcfe, 0x10325476, 0xc3d2e1f0).

Fixpoint sha1_schedule (n : nat) (w : list Z) : list Z :=
  match n with
  | O => w
  | S n' =>
      sha1_schedule n'
        (w ++ [rotl32 1 (Z.lxor (Z.lxor (back w 3) (back w 8))
                                (Z.lxor (back w 14) (back w 16)))])
  end.

Definition sha1_round (s : word5) (iw : nat * Z) : word5 :=
  let '(a, b, c, d, e) := s in
  let i := fst iw in
  let '(f, k) :=
    if (i <? 20)%nat then (Z.lor (Z.land b c) (Z.land (not32 b) d), 0x5a827999)
    else if (i <? 40)%nat then (Z.lxor (Z.lxor b c) d, 0x6ed9eba1)
    else if (i <? 60)%nat then
      (Z.lor (Z.lor (Z.land b c) (Z.land b d)) (Z.land c d), 0x8f1bbcdc)
    else (Z.lxor (Z.lxor b c) d, 0xca62c1d6) in
  (add32 (add32 (add32 (rotl32 5 a) f) (add32 e k)) (snd iw),
   a, rotl32 30 b, c, d).

Definition sha1_compress (s : word5) (blk : list Z) : word5 :=
  let '(a, b, c, d, e) := s in
  let '(a', b', c', d', e') :=
    fold_left sha1_round (combine (seq 0 80) (sha1_schedule 64 blk)) s in
  (add32 a a', add32 b b', add32 c c', add32 d d', add32 e e').

Definition sha1 (msg : list Z) : list Z :=
  let '(a, b, c, d, e) :=
    fold_left sha1_compress (blocks be_word (pad be_bytes msg)) sha1_init in
  flat_map (be_bytes 4) [a; b; c; d; e].

(** *** MD5 *)

Definition md5_K : list Z := hex_words
  ("d76aa478e8c7b756242070dbc1bdceeef57c0faf4787c62aa8304613fd469501" ++
   "698098d88b44f7afffff5bb1895cd7be6b901122fd987193a679438e49b40821" ++
   "f61e2562c040b340265e5a51e9b6c7aad62f105d02441453d8a1e681e7d3fbc8" ++
   "21e1cde6c33707d6f4d50d87455a14eda9e3e905fcefa3f8676f02d98d2a4c8a" ++
   "fffa39428771f6816d9d6122fde5380ca4beea444bdecfa9f6bb4b60bebfbc70" ++
   "289b7ec6eaa127fad4ef308504881d05d9d4d039e6db99e51fa27cf8c4ac5665" ++
   "f4292244432aff97ab9423a7fc93a039655b59c38f0ccc92ffeff47d85845dd1" ++
   "6fa87e4ffe2ce6e0a30143144e0811a1f7537e82bd3af2352ad7d2bbeb86d391").

Definition md5_shift (i : nat) : Z :=
  nth (4 * (i / 16) + i mod 4)%nat
      [7; 12; 17; 22; 5; 9; 14; 20; 4; 11; 16; 23; 6; 10; 15; 21] 0.

Definition word4 : Type := Z * Z * Z * Z.

Definition md5_init : word4 := (0x67452301, 0xefcdab89, 0x98badcfe, 0x10325476).

Definition md5_round (blk : list Z) (s : word4) (ik : nat * Z) : word4 :=
  let '(a, b, c, d) := s in
  let i := fst ik in
  let '(f, g) :=
    if (i <? 16)%nat then (Z.lor (Z.land b c) (Z.land (not32 b) d), i)
    else if (i <? 32)%nat then
      (Z.lor (Z.land d b) (Z.land (not32 d) c), ((5 * i + 1) mod 16)%nat)
    else if (i <? 48)%nat then (Z.lxor (Z.lxor b c) d, ((3 * i + 5) mod 16)%nat)
    else (Z.lxor c (Z.lor b (not32 d)), ((7 * i) mod 16)%nat) in
  let x := add32 (add32 f a) (add32 (snd ik) (nth g blk 0)) in
  (d, add32 b (rotl32 (md5_shift i) x), b, c).

Definition md5_compress (s : word4) (blk : list Z) : word4 :=
  let '(a, b, c, d) := s in
  let '(a', b', c', d') :=
    fold_left (md5_round blk) (combine (seq 0 64) md5_K) s in
  (add32 a a', add32 b b', add32 c c', add32 d d').

Definition md5 (msg : list Z) : list Z :=
  let '(a, b, c, d) :=
    fold_left md5_compress (blocks le_word (pad le_bytes msg)) md5_init in
  flat_map (le_bytes 4) [a; b; c; d].

(** The algorithms [calculate_hash] is called with. *)
Inductive algorithm : Type := MD5 | SHA1 | SHA256.

Definition digest (alg : algorithm) (msg : list Z) : list Z :=
  match alg with
  | MD5 => md5 msg
  | SHA1 => sha1 msg
  | SHA256 => sha256 msg
  end.

Definition digest_size (alg : algorithm) : nat :=
  match alg with MD5 => 16 | SHA1 => 20 | SHA256 => 32 end%nat.

(** A hash object as [hashlib.new] returns it: the algorithm and the bytes
    fed so far.  [update] feeds a chunk, [hexdigest] digests what was fed. *)
Record hash_obj : Type := mkHash { h_alg : algorithm; h_fed : list Z }.

Definition new (alg : algorithm) : hash_obj := mkHash alg [].
Definition update (h : hash_obj) (chunk : list Z) : hash_obj :=
  mkHash (h_alg h) (h_fed h ++ chunk).
Definition hexdigest (h : hash_obj) : string := hexlify (digest (h_alg h) (h_fed h)).

Definition ascii_bytes (s : string) : list Z :=
  map (fun c => Z.of_N (N_of_ascii c)) (list_ascii_of_string s).

End Hashlib.

(** ** Python values

    The dictionaries, lists, strings and numbers the evidence chain builds
    and that [json] stores.  A dictionary keeps its insertion order, as
    Python's does: it is a list of bindings with distinct keys. *)

#[warnings="-register-all"]
Inductive pyval : Type :=
| PNone
| PBool (b : bool)
| PInt (z : Z)
| PStr (s : string)
| PList (l : list pyval)
| PDict (kv : list (string * pyval)).

Abbreviation pydict := (list (string * pyval)).

(** [d.get(k, default)] *)
Fixpoint dict_get (d : pydict) (k : string) (default : pyval) : pyval :=
  match d with
  | [] => default
  | (k', v) :: r => if String.eqb k' k then v else dict_get r k default
  end.

(** [k in d] *)
Definition dict_has (d : pydict) (k : string) : bool :=
  existsb (fun kv => String.eqb (fst kv) k) d.

(** [d[k] = v] *)
Fixpoint dict_set (d : pydict) (k : string) (v : pyval) : pydict :=
  match d with
  | [] => [(k, v)]
  | (k', v') :: r =>
      if String.eqb k' k then (k, v) :: r else (k', v') :: dict_set r k v
  end.

(** [bool(v)] *)
Definition py_truth (v : pyval) : bool :=
  match v with
  | PNone => false
  | PBool b => b
  | PInt z => negb (Z.eqb z 0)
  | PStr s => negb (String.eqb s EmptyString)
  | PList l => match l with [] => false | _ => true end
  | PDict d => match d with [] => false | _ => true end
  end.

(** [v == s] for a string [s]: only a string compares equal to a string. *)
Definition py_eq_str (v : pyval) (s : string) : bool :=
  match v with
  | PStr s' => String.eqb s' s
  | _ => false
  end.

(** [str(n)] for an integer, and [str.zfill]. *)
Definition str_of_Z (n : Z) : string := NilZero.string_of_int (Z.to_int n).

Definition zfill (width : nat) (s : string) : string :=
  string_of_list_ascii (repeat "0"%char (width - String.length s))
  ++ s.

(** ** Exceptions and the state of the machine *)

Inductive exn : Type :=
| FileNotFoundError (path : string)
| PermissionError (path : string)
| JSONDecodeError
| KeyError (key : string)
| TypeError
| AttributeError (attr : string)
| ValueError.

(** [str(e)], the text the recorder stores in its [error] field. *)
Definition exn_str (e : exn) : string :=
  match e with
  | FileNotFoundError p => "[Errno 2] No such file or directory: '" ++ p ++ "'"
  | PermissionError p => "[Errno 13] Permission denied: '" ++ p ++ "'"
  | JSONDecodeError => "Expecting value: line 1 column 1 (char 0)"
  | KeyError k => "'" ++ k ++ "'"
  | TypeError => "object is not subscriptable"
  | AttributeError a => "object has no attribute '" ++ a ++ "'"
  | ValueError => "dict contains fields not in fieldnames"
  end.

(** [datetime.datetime]: the fields of a naive local time. *)
Record datetime : Type := mkDatetime {
  year : Z; month : Z; day : Z;
  hour : Z; minute : Z; second : Z; microsecond : Z }.

Definition pad_num (width : nat) (n : Z) : string := zfill width (str_of_Z n).

(** [t.isoformat()]: the microseconds are left out when they are zero. *)
Definition isoformat (t : datetime) : string :=
  pad_num 4 (year t) ++ "-" ++ pad_num 2 (month t) ++ "-" ++ pad_num 2 (day t)
  ++ "T" ++ pad_num 2 (hour t) ++ ":" ++ pad_num 2 (minute t) ++ ":"
  ++ pad_num 2 (second t)
  ++ (if Z.eqb (microsecond t) 0 then EmptyString else "." ++ pad_num 6 (microsecond t)).

(** An artefact file: its bytes, and whether [open(path, 'rb')] succeeds
    (a directory or a file without read permission exists, has a size, and
    cannot be opened). *)
Record file : Type := mkFile {
  f_bytes : list Byte.byte;
  f_readable : bool }.

(** [evidence_log.json]: absent, present with text [json.load] rejects, or
    present with the text of a value. [json.load] after [json.dump] gives the
    value back. *)
Inductive docfile : Type :=
| DocAbsent
| DocCorrupt
| Doc (v : pyval).

(** A persisted report file: the JSON of the report, or the rendered page,
    kept as the values interpolated into the fixed template, in template
    order. *)
Inductive report_file : Type :=
| ReportJson (report : pyval)
| ReportHtml (fields : list pyval).

(** The state the functions run in.  The two ledger files have fixed paths
    in the code and are kept apart from the artefact files, which the
    functions only read; [files] ranges over the artefact paths.  The
    [_ok] and [_writable] flags say whether the directory can be made and
    the file opened for writing (permissions, disk).  [now] is what
    [datetime.datetime.now()] returns; it moves with the environment, not
    within a call. *)
Record world : Type := mkWorld {
  files : gmap string file;
  evidence_dir_ok : bool;
  csv_log : option (list (list pyval));
  csv_writable : bool;
  json_log : docfile;
  json_writable : bool;
  reports_dir_ok : bool;
  reports_writable : bool;
  reports : gmap string report_file;
  now : datetime }.

Definition set_csv_log (c : option (list (list pyval))) (w : world) : world :=
  mkWorld (files w) (evidence_dir_ok w) c (csv_writable w) (json_log w)
          (json_writable w) (reports_dir_ok w) (reports_writable w)
          (reports w) (now w).

Definition set_json_log (j : docfile) (w : world) : world :=
  mkWorld (files w) (evidence_dir_ok w) (csv_log w) (csv_writable w) j
          (json_writable w) (reports_dir_ok w) (reports_writable w)
          (reports w) (now w).

Definition set_reports (r : gmap string report_file) (w : world) : world :=
  mkWorld (files w) (evidence_dir_ok w) (csv_log w) (csv_writable w)
          (json_log w) (json_writable w) (reports_dir_ok w)
          (reports_writable w) r (now w).

(** What a call does: it returns or raises, and leaves a state. *)
Inductive outcome (A : Type) : Type :=
| Ret (a : A)
| Raise (e : exn).
Arguments Ret {A} a.
Arguments Raise {A} e.

Definition M (A : Type) : Type := world -> outcome A * world.

Definition ret {A : Type} (a : A) : M A := fun w => (Ret a, w).
Definition raise {A : Type} (e : exn) : M A := fun w => (Raise e, w).

Definition bind {A B : Type} (m : M A) (k : A -> M B) : M B :=
  fun w =>
    match m w with
    | (Ret a, w') => k a w'
    | (Raise e, w') => (Raise e, w')
    end.

(** [try: m  except: h]; what [m] wrote before it raised stays written. *)
Definition try_except {A : Type} (m : M A) (h : exn -> M A) : M A :=
  fun w =>
    match m w with
    | (Ret a, w') => (Ret a, w')
    | (Raise e, w') => h e w'
    end.

Definition get_world : M world := fun w => (Ret w, w).
Definition put_world (w' : world) : M unit := fun _ => (Ret tt, w').
Definition lift {A : Type} (o : outcome A) : M A := fun w => (o, w).

Declare Scope py_scope.
Delimit Scope py_scope with py.
Notation "x <- m ;; k" := (bind m (fun x => k))
  (at level 100, m at next level, right associativity) : py_scope.
Notation "m ;;; k" := (bind m (fun _ => k))
  (at level 100, right associativity) : py_scope.
Local Open Scope py_scope.

(** ** Paths, sizes and the operating system *)

(** [os.path.basename] (POSIX): what follows the last slash. *)
Fixpoint after_last_slash (p cur : string) : string :=
  match p with
  | EmptyString => cur
  | String c r =>
      if Ascii.eqb c "/" then after_last_slash r r else after_last_slash r cur
  end.

Definition basename (p : string) : string := after_last_slash p p.

Fixpoint ends_with_slash (p : string) : bool :=
  match p with
  | EmptyString => false
  | String c EmptyString => Ascii.eqb c "/"
  | String _ r => ends_with_slash r
  end.

(** [os.path.join(a, b)] (POSIX) *)
Definition os_path_join (a b : string) : string :=
  match b with
  | String "/" _ => b
  | _ =>
      if String.eqb a EmptyString || ends_with_slash a then a ++ b else a ++ "/" ++ b
  end.

(** [f"{num/den:.2f}"]: two decimals, the exact quotient rounded half to
    even. *)
Definition fixed2 (num den : Z) : string :=
  let q := (100 * num) / den in
  let r := (100 * num) mod den in
  let q' := if Z.ltb den (2 * r) || (Z.eqb (2 * r) den && Z.odd q) then q + 1 else q in
  str_of_Z (q' / 100) ++ "." ++ pad_num 2 (q' mod 100).

Fixpoint scale_units (units : list string) (num den : Z) : string :=
  match units with
  | [] => fixed2 num den ++ " TB"
  | u :: r =>
      if Z.ltb num (1024 * den) then fixed2 num den ++ " " ++ u
      else scale_units r num (1024 * den)
  end.

(** [format_file_size].  The source divides a float by 1024.0 at each unit;
    a size below 2^53 stays exact under these divisions, and the value is
    kept here as the fraction [size_bytes / den]. *)
Definition format_file_size (size_bytes : Z) : string :=
  if Z.eqb size_bytes 0 then "0 B"
  else scale_units ["B"; "KB"; "MB"; "GB"] size_bytes 1.

Definition os_path_exists (p : string) : M bool :=
  fun w => (Ret (bool_decide (is_Some (files w !! p))), w).

(** [os.path.getsize], [getmtime] and [getctime] all stat the file and
    raise when it is missing. *)
Definition os_stat (p : string) : M file :=
  fun w =>
    match files w !! p with
    | Some f => (Ret f, w)
    | None => (Raise (FileNotFoundError p), w)
    end.

Definition byte_val (b : Byte.byte) : Z := Z.of_N (Byte.to_N b).

Definition os_path_getsize (p : string) : M Z :=
  f <- os_stat p ;; ret (Z.of_nat (length (f_bytes f))).

(** The two times are read and not used; only the stat can be observed. *)
Definition os_path_getmtime (p : string) : M unit := os_stat p ;;; ret tt.
Definition os_path_getctime (p : string) : M unit := os_stat p ;;; ret tt.

(** [open(p, 'rb')]: the bytes the handle will deliver. *)
Definition open_rb (p : string) : M (list Z) :=
  f <- os_stat p ;;
  if f_readable f then ret (map byte_val (f_bytes f))
  else raise (PermissionError p).

(** ** The digest engine: [calculate_hash] *)

(** The loop [for chunk in iter(lambda: f.read(size), b'')] with its body
    [hash_func.update(chunk)], on a handle with [rest] left to deliver: it
    ends at the first empty read. *)
Fixpoint read_chunks (size fuel : nat) (rest : list Z)
    (hash_func : Hashlib.hash_obj) : Hashlib.hash_obj :=
  match fuel with
  | O => hash_func
  | S fuel' =>
      match firstn size rest with
      | [] => hash_func
      | chunk =>
          read_chunks size fuel' (skipn size rest) (Hashlib.update hash_func chunk)
      end
  end.

Definition calculate_hash (file_path : string) (algorithm : Hashlib.algorithm)
  : M string :=
  let hash_func := Hashlib.new algorithm in
  try_except
    (f <- open_rb file_path ;;
     ret (Hashlib.hexdigest (read_chunks 4096 (S (length f)) f hash_func)))
    (fun _ => ret "ERROR").

(** ** The evidence ledger *)

Definition fieldnames : list string :=
  ["timestamp"; "filename"; "full_path"; "file_size"; "file_size_readable";
   "md5"; "sha1"; "sha256"; "operation"; "operator"; "device_id";
   "integrity_check"; "notes"].

Definition evidence_dir : string := "collector/static/collected_data/evidence_chain".
Definition log_file : string := os_path_join evidence_dir "evidence_log.csv".
Definition json_file : string := os_path_join evidence_dir "evidence_log.json".

Definition os_makedirs_evidence : M unit :=
  fun w =>
    if evidence_dir_ok w then (Ret tt, w)
    else (Raise (PermissionError evidence_dir), w).

(** [open(log_file, 'a')]: the file is created when it is missing. *)
Definition open_csv_append : M unit :=
  fun w =>
    if csv_writable w then
      (Ret tt, set_csv_log (Some (default [] (csv_log w))) w)
    else (Raise (PermissionError log_file), w).

Definition csv_write_line (line : list pyval) : M unit :=
  fun w => (Ret tt, set_csv_log (Some (default [] (csv_log w) ++ [line])%list) w).

(** [csv.DictWriter.writerow]: a key outside [fieldnames] raises; a missing
    field is written empty. *)
Definition csv_row (entry : pydict) : list pyval :=
  map (fun k => dict_get entry k (PStr EmptyString)) fieldnames.

Definition known_fields (entry : pydict) : bool :=
  forallb (fun kv => existsb (String.eqb (fst kv)) fieldnames) entry.

Definition writerow (entry : pydict) : M unit :=
  if known_fields entry then csv_write_line (csv_row entry)
  else raise ValueError.

Definition json_load : M pyval :=
  fun w =>
    match json_log w with
    | Doc v => (Ret v, w)
    | DocCorrupt => (Raise JSONDecodeError, w)
    | DocAbsent => (Raise (FileNotFoundError json_file), w)
    end.

(** [open(json_file, 'w')] then [json.dump(v, f)] *)
Definition json_dump (v : pyval) : M unit :=
  fun w =>
    if json_writable w then (Ret tt, set_json_log (Doc v) w)
    else (Raise (PermissionError json_file), w).

Definition json_exists : M bool :=
  fun w => (Ret (match json_log w with DocAbsent => false | _ => true end), w).

(** [data["evidence_chain"].append(evidence_entry)] *)
Definition append_entry (data : pyval) (evidence_entry : pydict) : outcome pyval :=
  match data with
  | PDict d =>
      if dict_has d "evidence_chain" then
        match dict_get d "evidence_chain" PNone with
        | PList l =>
            Ret (PDict (dict_set d "evidence_chain" (PList (l ++ [PDict evidence_entry])%list)))
        | _ => Raise (AttributeError "append")
        end
      else Raise (KeyError "evidence_chain")
  | _ => Raise TypeError
  end.

Definition save_to_json_log (evidence_entry : pydict) : M unit :=
  try_except
    (present <- json_exists ;;
     data <- (if present : bool then json_load
              else ret (PDict [("evidence_chain", PList [])])) ;;
     data' <- lift (append_entry data evidence_entry) ;;
     json_dump data')
    (fun _ => json_dump (PDict [("evidence_chain", PList [PDict evidence_entry])])).

Definition save_to_evidence_log (evidence_entry : pydict) : M unit :=
  os_makedirs_evidence ;;;
  w <- get_world ;;
  let file_exists := bool_decide (is_Some (csv_log w)) in
  open_csv_append ;;;
  (if file_exists then ret tt else csv_write_line (map PStr fieldnames)) ;;;
  writerow evidence_entry ;;;
  save_to_json_log evidence_entry.

(** ** The recorder: [create_evidence_chain] *)

Definition datetime_now : M datetime := fun w => (Ret (now w), w).

Definition create_evidence_chain (file_path operation_type : string) : M pydict :=
  try_except
    (file_size <- os_path_getsize file_path ;;
     os_path_getmtime file_path ;;;
     os_path_getctime file_path ;;;
     hash_md5 <- calculate_hash file_path Hashlib.MD5 ;;
     hash_sha1 <- calculate_hash file_path Hashlib.SHA1 ;;
     hash_sha256 <- calculate_hash file_path Hashlib.SHA256 ;;
     t <- datetime_now ;;
     let evidence_entry :=
       [("timestamp", PStr (isoformat t));
        ("filename", PStr (basename file_path));
        ("full_path", PStr file_path);
        ("file_size", PInt file_size);
        ("file_size_readable", PStr (format_file_size file_size));
        ("md5", PStr hash_md5);
        ("sha1", PStr hash_sha1);
        ("sha256", PStr hash_sha256);
        ("operation", PStr operation_type);
        ("operator", PStr "Android Collector");
        ("device_id", PStr "N/A");
        ("integrity_check", PStr "PASS");
        ("notes", PStr (operation_type ++ " via ADB backup"))] in
     save_to_evidence_log evidence_entry ;;;
     ret evidence_entry)
    (fun e =>
       t <- datetime_now ;;
       ret [("timestamp", PStr (isoformat t));
            ("filename", PStr (basename file_path));
            ("error", PStr (exn_str e));
            ("integrity_check", PStr "FAIL")]).

(** ** The verifier: [verify_integrity] *)

(** [for entry in v]: a list gives its elements, a string its characters, a
    dictionary its keys; the other values are not iterable. *)
Definition py_iter (v : pyval) : outcome (list pyval) :=
  match v with
  | PList l => Ret l
  | PStr s => Ret (map (fun c => PStr (String c EmptyString)) (list_ascii_of_string s))
  | PDict d => Ret (map (fun kv => PStr (fst kv)) d)
  | _ => Raise TypeError
  end.

(** The loop of [verify_integrity]: it stops at the first entry whose
    [filename] is the one looked for ([break]); [original_entry] starts as
    [None]. *)
Fixpoint find_entry (filename : string) (entries : list pyval) : outcome pyval :=
  match entries with
  | [] => Ret PNone
  | entry :: rest =>
      match entry with
      | PDict d =>
          if py_eq_str (dict_get d "filename" PNone) filename then Ret entry
          else find_entry filename rest
      | _ => Raise (AttributeError "get")
      end
  end.

(** [v.get(k, default)] on a value that may not be a dictionary. *)
Definition py_get (v : pyval) (k : string) (default : pyval) : outcome pyval :=
  match v with
  | PDict d => Ret (dict_get d k default)
  | _ => Raise (AttributeError "get")
  end.

Definition error_result (message : string) : pydict :=
  [("status", PStr "error"); ("message", PStr message)].

Definition verify_integrity (file_path : string) : M pydict :=
  present <- os_path_exists file_path ;;
  if negb present then ret (error_result "Fichier introuvable") else
  logged <- json_exists ;;
  if negb logged then ret (error_result "Aucune preuve enregistrée") else
  data <- json_load ;;
  let filename := basename file_path in
  chain <- lift (py_get data "evidence_chain" (PList [])) ;;
  entries <- lift (py_iter chain) ;;
  original_entry <- lift (find_entry filename entries) ;;
  if negb (py_truth original_entry)
  then ret (error_result "Preuve originale introuvable") else
  current_hash <- calculate_hash file_path Hashlib.SHA256 ;;
  original_hash <- lift (py_get original_entry "sha256" PNone) ;;
  if py_eq_str original_hash current_hash then
    ret [("status", PStr "success");
         ("message", PStr "Intégrité vérifiée ✓");
         ("original_hash", original_hash);
         ("current_hash", PStr current_hash);
         ("match", PBool true)]
  else
    ret [("status", PStr "warning");
         ("message", PStr "ALTÉRATION DÉTECTÉE ⚠️");
         ("original_hash", original_hash);
         ("current_hash", PStr current_hash);
         ("match", PBool false)].

(** The view [verify_file_integrity]: the JSON response carries the result
    of [verify_integrity] on the path under the collection root. *)
Definition verify_file_integrity (file_path : string) : M pydict :=
  let full_path := os_path_join "collector/static/collected_data" file_path in
  verify_integrity full_path.

(** ** The report assembler *)

(** [t.strftime('%Y%m%d-%H%M%S')], the body of a report identifier. *)
Definition strftime_compact (t : datetime) : string :=
  pad_num 4 (year t) ++ pad_num 2 (month t) ++ pad_num 2 (day t) ++ "-"
  ++ pad_num 2 (hour t) ++ pad_num 2 (minute t) ++ pad_num 2 (second t).

(** [t.strftime('%Y-%m-d %H:%M:%S')]: the source writes [d] without its
    percent sign, so the day is the letter itself. *)
Definition strftime_acquisition (t : datetime) : string :=
  pad_num 4 (year t) ++ "-" ++ pad_num 2 (month t) ++ "-d "
  ++ pad_num 2 (hour t) ++ ":" ++ pad_num 2 (minute t) ++ ":"
  ++ pad_num 2 (second t).

Definition count_artefacts (extraction_data : pydict) : pydict :=
  map (fun k => (k, PInt 0))
    ["contacts"; "calls"; "sms"; "whatsapp"; "images"; "videos"; "audio";
     "documents"; "browsing_history"; "location_data"; "google_maps";
     "wifi_networks"; "installed_apps"].

Definition oui_non (v : pyval) : pyval :=
  PStr (if py_truth v then "Oui" else "Non").

Definition generate_findings_summary (extraction_data : pydict) : pydict :=
  let flag k := oui_non (dict_get extraction_data k (PBool false)) in
  [("contacts_found", flag "has_contacts");
   ("call_logs_found", flag "has_calls");
   ("sms_messages_found", flag "has_sms");
   ("whatsapp_data_found", flag "has_whatsapp");
   ("google_maps_data_found", flag "has_google_maps");
   ("images_found", flag "has_images");
   ("location_data_found", flag "has_location");
   ("significant_findings",
    dict_get extraction_data "significant_findings"
      (PStr "Aucune donnée significative"))].

Definition extract_timeline_data (extraction_data : pydict) : M pydict :=
  t <- datetime_now ;;
  ret [("first_activity", dict_get extraction_data "first_activity" (PStr "N/A"));
       ("last_activity",
        dict_get extraction_data "last_activity" (PStr (isoformat t)));
       ("key_events", dict_get extraction_data "key_events" (PList []));
       ("activity_period", PStr "À déterminer")].

(** [v[k]] for a string key. *)
Definition py_getitem (v : pyval) (k : string) : outcome pyval :=
  match v with
  | PDict d => if dict_has d k then Ret (dict_get d k PNone) else Raise (KeyError k)
  | _ => Raise TypeError
  end.

Definition obind {A B : Type} (o : outcome A) (k : A -> outcome B) : outcome B :=
  match o with
  | Ret a => k a
  | Raise e => Raise e
  end.

(** [v[k1][k2]] *)
Definition py_getitem2 (v : pyval) (k1 k2 : string) : outcome pyval :=
  obind (py_getitem v k1) (fun s => py_getitem s k2).

Fixpoint collect {A : Type} (l : list (outcome A)) : outcome (list A) :=
  match l with
  | [] => Ret []
  | o :: r => obind o (fun a => obind (collect r) (fun r' => Ret (a :: r')))
  end.

(** [sum(d.values())] *)
Fixpoint sum_values (vs : list pyval) (acc : Z) : outcome Z :=
  match vs with
  | [] => Ret acc
  | PInt z :: r => sum_values r (acc + z)
  | PBool b :: r => sum_values r (acc + Z.b2z b)
  | _ :: _ => Raise TypeError
  end.

Definition py_sum_values (v : pyval) : outcome pyval :=
  match v with
  | PDict d => obind (sum_values (map snd d) 0) (fun z => Ret (PInt z))
  | _ => Raise (AttributeError "values")
  end.

(** [generate_html_report]: the values the template interpolates, in the
    order the template names them; the list of recommendations is joined
    item by item and the footer carries the current year. *)
Definition generate_html_report (report : pyval) : M (list pyval) :=
  t <- datetime_now ;;
  lift (collect
    [py_getitem report "report_id";
     py_getitem report "report_id";
     py_getitem report "generation_date";
     py_getitem2 report "case_details" "case_name";
     py_getitem2 report "case_details" "incident_date";
     py_getitem2 report "case_details" "location";
     py_getitem2 report "device_information" "device_model";
     py_getitem2 report "device_information" "android_version";
     py_getitem2 report "device_information" "manufacturer";
     py_getitem2 report "acquisition_details" "method";
     py_getitem2 report "acquisition_details" "tool";
     py_getitem2 report "acquisition_details" "date_time";
     obind (py_getitem report "artefacts_extracted") py_sum_values;
     py_getitem2 report "findings_summary" "contacts_found";
     py_getitem2 report "findings_summary" "call_logs_found";
     py_getitem2 report "findings_summary" "sms_messages_found";
     py_getitem2 report "findings_summary" "whatsapp_data_found";
     py_getitem2 report "findings_summary" "google_maps_data_found";
     py_getitem2 report "evidence_chain" "integrity_verified";
     py_getitem2 report "evidence_chain" "total_files";
     py_getitem2 report "evidence_chain" "hashes_calculated";
     py_getitem2 report "conclusions" "main_findings";
     obind (py_getitem2 report "conclusions" "recommendations")
           (fun v => obind (py_iter v) (fun l => Ret (PList l)));
     py_getitem report "disclaimer";
     Ret (PInt (year t))]).

(** [s.replace(old, new)] for a non-empty [old]: the occurrences are taken
    left to right and do not overlap; [skip] counts the characters of an
    occurrence still to pass over. *)
Fixpoint str_replace (old new : string) (skip : nat) (s : string) : string :=
  match s with
  | EmptyString => EmptyString
  | String c r =>
      match skip with
      | S k => str_replace old new k r
      | O =>
          if String.prefix old s
          then new ++ str_replace old new (String.length old - 1) r
          else String c (str_replace old new 0 r)
      end
  end.

Definition reports_dir : string := "collector/static/collected_data/forensic_reports".

Definition os_makedirs_reports : M unit :=
  fun w =>
    if reports_dir_ok w then (Ret tt, w)
    else (Raise (PermissionError reports_dir), w).

(** [open(path, 'w')] in the reports directory, then the write. *)
Definition write_report (path : string) (content : report_file) : M unit :=
  fun w =>
    if reports_writable w then (Ret tt, set_reports (<[path := content]> (reports w)) w)
    else (Raise (PermissionError path), w).

Definition report_exists (path : string) : M bool :=
  fun w => (Ret (bool_decide (is_Some (reports w !! path))), w).

Definition save_report_files (report : pyval) (report_id : string) : M pydict :=
  os_makedirs_reports ;;;
  let json_path := os_path_join reports_dir (report_id ++ ".json") in
  write_report json_path (ReportJson report) ;;;
  let html_file := os_path_join reports_dir (report_id ++ ".html") in
  html_content <- generate_html_report report ;;
  write_report html_file (ReportHtml html_content) ;;;
  let pdf_file := os_path_join reports_dir (report_id ++ ".pdf") in
  has_pdf <- report_exists pdf_file ;;
  let strip p := PStr (str_replace "collector/static/" EmptyString 0 p) in
  ret [("json", strip json_path);
       ("html", strip html_file);
       ("pdf", if has_pdf : bool then strip pdf_file else PNone)].

(** [scenario_data.get(key, missing) if scenario_data else unset] *)
Definition scenario_field (scenario_data : option pydict) (key : string)
    (missing unset : pyval) : pyval :=
  match scenario_data with
  | Some d => if py_truth (PDict d) then dict_get d key missing else unset
  | None => unset
  end.

Definition generate_forensic_report (extraction_data : pydict)
    (scenario_data : option pydict) : M pydict :=
  timestamp <- datetime_now ;;
  let report_id := "FR-" ++ strftime_compact timestamp in
  let device_info := dict_get extraction_data "device_info" (PDict []) in
  let artefacts_count := count_artefacts extraction_data in
  let device k d := py_get device_info k (PStr d) in
  device_model <- lift (device "device_model" "Inconnu") ;;
  android_version <- lift (device "android_version" "Inconnu") ;;
  manufacturer <- lift (device "manufacturer" "Inconnu") ;;
  serial_number <- lift (device "serial" "N/A") ;;
  imei <- lift (device "imei" "N/A") ;;
  storage_capacity <- lift (device "storage" "N/A") ;;
  timeline <- extract_timeline_data extraction_data ;;
  let report :=
    [("report_id", PStr report_id);
     ("generation_date", PStr (isoformat timestamp));
     ("report_type", PStr "Rapport d'Investigation Numérique");
     ("case_reference",
      scenario_field scenario_data "case_number"
        (PStr "CS-2024-001") (PStr "CS-NON-RENSEIGNE"));
     ("investigator", PStr "Android Collector Forensic Tool");
     ("version", PStr "1.0");
     ("case_details", PDict
        [("case_name",
          scenario_field scenario_data "case_name"
            (PStr "Investigation Android") (PStr "Investigation Standard"));
         ("incident_date",
          scenario_field scenario_data "incident_date" (PStr "N/A") (PStr "N/A"));
         ("location",
          scenario_field scenario_data "location" (PStr "N/A") (PStr "N/A"));
         ("description",
          scenario_field scenario_data "description"
            (PStr "Analyse forensique d'un appareil Android")
            (PStr "Analyse forensique standard"))]);
     ("device_information", PDict
        [("device_model", device_model);
         ("android_version", android_version);
         ("manufacturer", manufacturer);
         ("serial_number", serial_number);
         ("imei", imei);
         ("storage_capacity", storage_capacity)]);
     ("acquisition_details", PDict
        [("method", PStr "Logical Acquisition via ADB");
         ("tool", PStr "Android Collector Platform");
         ("date_time", PStr (strftime_acquisition timestamp));
         ("operator", PStr "System Operator");
         ("hash_verification", PStr "SHA256 implemented")]);
     ("artefacts_extracted", PDict artefacts_count);
     ("evidence_chain", PDict
        [("total_files", dict_get extraction_data "total_files" (PInt 0));
         ("hashes_calculated",
          dict_get extraction_data "hashes_calculated" (PBool true));
         ("integrity_verified",
          dict_get extraction_data "integrity_ok" (PBool true))]);
     ("findings_summary", PDict (generate_findings_summary extraction_data));
     ("timeline_analysis", PDict timeline);
     ("conclusions", PDict
        [("main_findings",
          dict_get extraction_data "main_findings"
            (PStr "Aucune donnée compromettante détectée"));
         ("recommendations", PList
            [PStr "Conserver les fichiers de hash pour vérification future";
             PStr "Archiver les preuves dans un support sécurisé";
             PStr "Documenter toute manipulation ultérieure"])]);
     ("disclaimer",
      PStr ("Ce rapport a été généré automatiquement. Pour une analyse "
            ++ "complète, consulter un expert en forensic numérique."))] in
  save_report_files (PDict report) report_id ;;;
  ret report.

(** * Reading the model

    Definitions used to state the properties: what each function computes
    on a state, how the ledger is read, histories of calls, the statements
    of the specification as it words them, and a few concrete states. *)

(** ** Digests *)

Definition file_digest (alg : Hashlib.algorithm) (f : file) : string :=
  Hashlib.hexlify (Hashlib.digest alg (map byte_val (f_bytes f))).

(** The text [calculate_hash] hands back for a path. *)
Definition hash_text (w : world) (p : string) (alg : Hashlib.algorithm) : string :=
  match files w !! p with
  | Some f => if f_readable f then file_digest alg f else "ERROR"
  | None => "ERROR"
  end.

(** The lowercase hexadecimal text of a digest of [alg]. *)
Definition lower_hex (alg : Hashlib.algorithm) (s : string) : Prop :=
  String.length s = (2 * Hashlib.digest_size alg)%nat /\
  Forall (fun c => In c Hashlib.hex_alphabet) (list_ascii_of_string s).

(** ** Records and the ledger *)

(** The record [create_evidence_chain] assembles for a file it could stat. *)
Definition evidence_entry (w : world) (p op : string) (f : file) : pydict :=
  let size := Z.of_nat (length (f_bytes f)) in
  [("timestamp", PStr (isoformat (now w)));
   ("filename", PStr (basename p));
   ("full_path", PStr p);
   ("file_size", PInt size);
   ("file_size_readable", PStr (format_file_size size));
   ("md5", PStr (hash_text w p Hashlib.MD5));
   ("sha1", PStr (hash_text w p Hashlib.SHA1));
   ("sha256", PStr (hash_text w p Hashlib.SHA256));
   ("operation", PStr op);
   ("operator", PStr "Android Collector");
   ("device_id", PStr "N/A");
   ("integrity_check", PStr "PASS");
   ("notes", PStr (op ++ " via ADB backup"))].

(** The record its [except] branch returns. *)
Definition degraded_entry (w : world) (p : string) (e : exn) : pydict :=
  [("timestamp", PStr (isoformat (now w)));
   ("filename", PStr (basename p));
   ("error", PStr (exn_str e));
   ("integrity_check", PStr "FAIL")].

(** A record call that went through: the record it returned says PASS. *)
Definition passed (r : pydict) : bool :=
  py_eq_str (dict_get r "integrity_check" PNone) "PASS".

Definition fresh_doc (entry : pydict) : pyval :=
  PDict [("evidence_chain", PList [PDict entry])].

(** The document [save_to_json_log] writes over a previous one. *)
Definition appended_doc (j : docfile) (entry : pydict) : pyval :=
  match j with
  | Doc data =>
      match append_entry data entry with
      | Ret data' => data'
      | Raise _ => fresh_doc entry
      end
  | _ => fresh_doc entry
  end.

(** The lines of [evidence_log.csv] after a row is written. *)
Definition csv_appended (c : option (list (list pyval))) (entry : pydict)
  : list (list pyval) :=
  match c with
  | Some lines => (lines ++ [csv_row entry])%list
  | None => [map PStr fieldnames; csv_row entry]
  end.

(** Reading the whole ledger, as [view_evidence_chain] and
    [verify_integrity] do: [data.get("evidence_chain", [])] of the parsed
    document, and no record when the document is absent.  [None] when the
    document does not parse or does not hold a list there. *)
Definition chain_of (data : pyval) : option (list pyval) :=
  match data with
  | PDict d =>
      match dict_get d "evidence_chain" (PList []) with
      | PList l => Some l
      | _ => None
      end
  | _ => None
  end.

Definition records (j : docfile) : option (list pyval) :=
  match j with
  | DocAbsent => Some []
  | DocCorrupt => None
  | Doc data => chain_of data
  end.

Definition read_all (w : world) : option (list pyval) := records (json_log w).

(** The lines of the CSV log, and the header line a first row brings with
    it when it creates the log. *)
Definition csv_lines (w : world) : list (list pyval) := default [] (csv_log w).

Definition csv_header (c : option (list (list pyval))) (rs : list pydict)
  : list (list pyval) :=
  match c, rs with
  | None, _ :: _ => [map PStr fieldnames]
  | _, _ => []
  end.

(** What happens to the store over time: calls of the recorder, and the
    environment changing the artefact files, the clock and the
    permissions.  The environment does not touch the contents of the two
    ledger files. *)
Inductive event : Type :=
| Call (file_path operation_type : string)
| Env (fs : gmap string file) (t : datetime) (dir_ok csv_w json_w : bool).

Definition env_step (fs : gmap string file) (t : datetime)
    (dir_ok csv_w json_w : bool) (w : world) : world :=
  mkWorld fs dir_ok (csv_log w) csv_w (json_log w) json_w
          (reports_dir_ok w) (reports_writable w) (reports w) t.

(** The records returned by the calls of a history, in call order, and the
    state it leaves. *)
Fixpoint run (evs : list event) (w : world) : list pydict * world :=
  match evs with
  | [] => ([], w)
  | Call p op :: rest =>
      let '(o, w1) := create_evidence_chain p op w in
      let '(rs, w2) := run rest w1 in
      (match o with Ret r => r :: rs | Raise _ => rs end, w2)
  | Env fs t d c j :: rest => run rest (env_step fs t d c j w)
  end.

(** ** Verification *)

(** The two results [verify_integrity] builds once it has both hashes. *)
Definition verdict (original_hash : pyval) (current_hash : string) : pydict :=
  if py_eq_str original_hash current_hash then
    [("status", PStr "success");
     ("message", PStr "Intégrité vérifiée ✓");
     ("original_hash", original_hash);
     ("current_hash", PStr current_hash);
     ("match", PBool true)]
  else
    [("status", PStr "warning");
     ("message", PStr "ALTÉRATION DÉTECTÉE ⚠️");
     ("original_hash", original_hash);
     ("current_hash", PStr current_hash);
     ("match", PBool false)].

(** The entry the loop of [verify_integrity] ends with, from the parsed
    document. *)
Definition lookup_entry (data : pyval) (filename : string) : outcome pyval :=
  obind (py_get data "evidence_chain" (PList []))
    (fun chain => obind (py_iter chain) (find_entry filename)).

(** A ledger entry recorded under [filename], and one recorded under
    another name. *)
Definition named (filename : string) (entry : pyval) : bool :=
  match entry with
  | PDict d => py_eq_str (dict_get d "filename" PNone) filename
  | _ => false
  end.

Definition other_record (filename : string) (entry : pyval) : bool :=
  match entry with
  | PDict d => negb (py_eq_str (dict_get d "filename" PNone) filename)
  | _ => false
  end.

(** An earlier entry does not stand in the way of a verification against
    digest [h]: it is a record, and if it is filed under [filename] it
    carries [h]. *)
Definition agrees (filename h : string) (entry : pyval) : bool :=
  match entry with
  | PDict d =>
      if py_eq_str (dict_get d "filename" PNone) filename
      then py_eq_str (dict_get d "sha256" PNone) h
      else true
  | _ => false
  end.

Definition no_conflict (w : world) (p : string) : bool :=
  forallb (agrees (basename p) (hash_text w p Hashlib.SHA256))
          (default [] (read_all w)).

(** The ways a call of [verify_integrity] can miss its preconditions, with
    the message each one is answered with. *)
Inductive verify_violation (w : world) (p : string) : string -> Prop :=
| file_missing :
    files w !! p = None ->
    verify_violation w p "Fichier introuvable"
| ledger_missing :
    is_Some (files w !! p) ->
    json_log w = DocAbsent ->
    verify_violation w p "Aucune preuve enregistrée"
| no_reference (data : pyval) (l : list pyval) :
    is_Some (files w !! p) ->
    json_log w = Doc data ->
    chain_of data = Some l ->
    forallb (other_record (basename p)) l = true ->
    verify_violation w p "Preuve originale introuvable".

(** ** Reports *)

(** [report[section][key]] *)
Definition report_at (report : pydict) (section key : string) : pyval :=
  match dict_get report section PNone with
  | PDict d => dict_get d key PNone
  | _ => PNone
  end.

(** The fields of [case_details]: the key of the case metadata each is
    read from, its default when the key is left out, and its value when no
    metadata is given. *)
Definition case_fields : list (string * string * pyval * pyval) :=
  [("case_name", "case_name",
    PStr "Investigation Android", PStr "Investigation Standard");
   ("incident_date", "incident_date", PStr "N/A", PStr "N/A");
   ("location", "location", PStr "N/A", PStr "N/A");
   ("description", "description",
    PStr "Analyse forensique d'un appareil Android",
    PStr "Analyse forensique standard")].

(** The fields of [device_information], from [device_info]. *)
Definition device_fields : list (string * string * pyval) :=
  [("device_model", "device_model", PStr "Inconnu");
   ("android_version", "android_version", PStr "Inconnu");
   ("manufacturer", "manufacturer", PStr "Inconnu");
   ("serial_number", "serial", PStr "N/A");
   ("imei", "imei", PStr "N/A");
   ("storage_capacity", "storage", PStr "N/A")].

(** The fields copied from the extraction data: section and key in the
    report, key in the extraction data, default. *)
Definition extraction_fields : list (string * string * string * pyval) :=
  [("evidence_chain", "total_files", "total_files", PInt 0);
   ("evidence_chain", "hashes_calculated", "hashes_calculated", PBool true);
   ("evidence_chain", "integrity_verified", "integrity_ok", PBool true);
   ("findings_summary", "significant_findings", "significant_findings",
    PStr "Aucune donnée significative");
   ("timeline_analysis", "first_activity", "first_activity", PStr "N/A");
   ("timeline_analysis", "key_events", "key_events", PList []);
   ("conclusions", "main_findings", "main_findings",
    PStr "Aucune donnée compromettante détectée")].

(** The presence flags of [findings_summary]. *)
Definition finding_flags : list (string * string) :=
  [("contacts_found", "has_contacts");
   ("call_logs_found", "has_calls");
   ("sms_messages_found", "has_sms");
   ("whatsapp_data_found", "has_whatsapp");
   ("google_maps_data_found", "has_google_maps");
   ("images_found", "has_images");
   ("location_data_found", "has_location")].

Definition report_path (report_id ext : string) : string :=
  "collector/static/collected_data/forensic_reports/" ++ report_id ++ ext.

(** ** The statements of the specification, as it words them *)

(** "Fails with IOError if the file cannot be opened" *)
Definition digest_raises_when_unopenable (w : world) (p : string)
    (alg : Hashlib.algorithm) : Prop :=
  fst (open_rb p w) = Raise (FileNotFoundError p) ->
  exists e, fst (calculate_hash p alg w) = Raise e.

(** "recorded as a degraded ledger entry" *)
Definition failure_is_logged (w : world) (p op : string) : Prop :=
  forall r w1,
    create_evidence_chain p op w = (Ret r, w1) ->
    passed r = false ->
    exists l, read_all w1 = Some l /\ In (PDict r) l.

(** "keep the last match (most recent) as the reference" *)
Definition last_match (filename : string) (entries : list pyval) : option pyval :=
  List.find (named filename) (rev entries).

Definition verify_uses_last_match (w : world) (p : string) : Prop :=
  forall entries r,
    is_Some (files w !! p) ->
    read_all w = Some entries ->
    last_match (basename p) entries = Some (PDict r) ->
    exists res,
      fst (verify_integrity p w) = Ret res /\
      dict_get res "original_hash" PNone = dict_get r "sha256" PNone.

(** "verify(f) performed immediately afterward ... returns VERIFIED with
    original_hash == current_hash" *)
Definition verified (res : pydict) : Prop :=
  dict_get res "status" PNone = PStr "success" /\
  dict_get res "match" PNone = PBool true /\
  dict_get res "original_hash" PNone = dict_get res "current_hash" PNone.

Definition record_then_verify (w : world) (p op : string) : Prop :=
  forall r w1,
    create_evidence_chain p op w = (Ret r, w1) ->
    passed r = true ->
    exists res, fst (verify_integrity p w1) = Ret res /\ verified res.

(** "returns an explicit error result and never crashes" *)
Definition verify_answers (w : world) (p : string) : Prop :=
  exists res, fst (verify_file_integrity p w) = Ret res.

(** "Output always includes both digests (original and current)" *)
Definition carries_both_hashes (res : pydict) : Prop :=
  dict_has res "original_hash" = true /\ dict_has res "current_hash" = true.

Definition verify_always_carries_hashes (w : world) (p : string) : Prop :=
  forall res, fst (verify_integrity p w) = Ret res -> carries_both_hashes res.

(** ** Concrete states *)

Definition bytes_of (s : string) : list Byte.byte :=
  map byte_of_ascii (list_ascii_of_string s).

Definition morning : datetime := mkDatetime 2024 5 17 9 3 7 123.

Definition evening : datetime := mkDatetime 2024 5 17 21 40 0 0.

Definition calls_txt : string := "collector/static/collected_data/calls.txt".

Definition sms_txt : string := "collector/static/collected_data/sms.txt".

(** Nothing recorded yet; every directory and file can be written. *)
Definition bare_world (fs : gmap string file) : world :=
  mkWorld fs true None true DocAbsent true true true ∅ morning.

Definition calls_v1 : file := mkFile (bytes_of "0612345678 incoming 42s") true.

Definition calls_v2 : file := mkFile (bytes_of "0612345678 outgoing 17s") true.

Definition locked : file := mkFile (bytes_of "0612345678 incoming 42s") false.

Definition one_file (f : file) : gmap string file := <[calls_txt := f]> ∅.

Definition two_files : gmap string file :=
  <[sms_txt := calls_v2]> (one_file calls_v1).

(** [calls.txt] recorded, extracted again with other contents, recorded
    again. *)
Definition recorded_twice : list event :=
  [Call calls_txt "calls_extraction";
   Env (one_file calls_v2) evening true true true;
   Call calls_txt "calls_extraction"].

Definition first_entry : pydict :=
  evidence_entry (bare_world (one_file calls_v1)) calls_txt "calls_extraction" calls_v1.

Definition second_entry : pydict :=
  evidence_entry (env_step (one_file calls_v2) evening true true true
                    (bare_world (one_file calls_v1)))
                 calls_txt "calls_extraction" calls_v2.

(** States reached by recording [calls.txt]. *)
Definition w_recorded : world :=
  snd (create_evidence_chain calls_txt "calls_extraction"
         (bare_world (one_file calls_v1))).

Definition w_recorded_two_files : world :=
  snd (create_evidence_chain calls_txt "calls_extraction" (bare_world two_files)).

Definition w_reextracted : world :=
  env_step (one_file calls_v2) evening true true true w_recorded.

Definition w_recorded_twice : world :=
  snd (run recorded_twice (bare_world (one_file calls_v1))).

Definition w_locked_recorded : world :=
  snd (create_evidence_chain calls_txt "calls_extraction"
         (bare_world (one_file locked))).

Definition w_corrupt : world :=
  set_json_log DocCorrupt (bare_world (one_file calls_v1)).

Definition w_read_only : world :=
  env_step (one_file calls_v1) morning true true false
    (bare_world (one_file calls_v1)).

(** The sample [get_latest_extraction_data] returns. *)
Definition latest_extraction_data : pydict :=
  [("device_info", PDict
      [("device_model", PStr "Infinix Smart 5");
       ("android_version", PStr "Android 11");
       ("manufacturer", PStr "Infinix")]);
   ("total_files", PInt 42);
   ("has_contacts", PBool true);
   ("has_calls", PBool true);
   ("has_sms", PBool true);
   ("has_whatsapp", PBool true);
   ("has_google_maps", PBool true);
   ("has_images", PBool true);
   ("has_location", PBool true);
   ("main_findings", PStr "Données de communication extraites avec succès");
   ("significant_findings", PStr "Trajets Google Maps détectés");
   ("google_maps_points", PInt 156)].

Definition affaire_x : pydict := [("case_name", PStr "Affaire X")].

(** * The views of the evidence chain and the file helpers *)

(** ** Text *)

(** The double quote, for the texts that hold one. *)
Definition dquote : string := String (ascii_of_nat 34) EmptyString.

(** A Python string is kept as its UTF-8 bytes; a character starts at each
    byte that is not a continuation byte. *)
Definition utf8_continuation (c : ascii) : bool :=
  let n := nat_of_ascii c in (128 <=? n)%nat && (n <? 192)%nat.

(** [len(s)] *)
Fixpoint str_len (s : string) : Z :=
  match s with
  | EmptyString => 0
  | String c r => (if utf8_continuation c then 0 else 1) + str_len r
  end.

(** [s[-1]] on a non-empty string: [cur] is the last character met. *)
Fixpoint last_char (s cur : string) : string :=
  match s with
  | EmptyString => cur
  | String c r =>
      if utf8_continuation c then last_char r (cur ++ String c EmptyString)
      else last_char r (String c EmptyString)
  end.

(** [s.endswith(suffix)] *)
Fixpoint str_endswith (s suffix : string) : bool :=
  String.eqb s suffix ||
  match s with
  | EmptyString => false
  | String _ r => str_endswith r suffix
  end.

(** [s.lower()], as far as ASCII text can tell: the letters A to Z, and the
    two characters beyond ASCII whose lower case holds an ASCII letter, the
    Kelvin sign (U+212A, to k) and the dotted capital I (U+0130, to i and a
    combining dot).  The other letters lower to characters beyond ASCII,
    which no test against ASCII text tells from the original. *)
Fixpoint str_lower (s : string) : string :=
  match s with
  | EmptyString => EmptyString
  | String c r =>
      let n := nat_of_ascii c in
      if (65 <=? n)%nat && (n <=? 90)%nat
      then String (ascii_of_nat (n + 32)) (str_lower r)
      else
        match r with
        | String c2 r2 =>
            if (n =? 196)%nat && (nat_of_ascii c2 =? 176)%nat
            then String "i" (String (ascii_of_nat 204)
                   (String (ascii_of_nat 135) (str_lower r2)))
            else
              match r2 with
              | String c3 r3 =>
                  if (n =? 226)%nat && (nat_of_ascii c2 =? 132)%nat
                     && (nat_of_ascii c3 =? 170)%nat
                  then String "k" (str_lower r3)
                  else String c (str_lower r)
              | EmptyString => String c (str_lower r)
              end
        | EmptyString => String c EmptyString
        end
  end.

(** [get_audio_mime_type] *)
Definition get_audio_mime_type (filename : string) : string :=
  let filename_lower := str_lower filename in
  if str_endswith filename_lower ".aac" then "audio/aac"
  else if str_endswith filename_lower ".m4a" then "audio/mp4"
  else if str_endswith filename_lower ".ogg" then "audio/ogg"
  else if str_endswith filename_lower ".wav" then "audio/wav"
  else if str_endswith filename_lower ".mp3" then "audio/mpeg"
  else if str_endswith filename_lower ".amr" then "audio/amr"
  else if str_endswith filename_lower ".flac" then "audio/flac"
  else "audio/mpeg".

(** ** Requests and responses *)

(** What a view is called with: the method and the form fields as posted,
    in order.  [request.POST.get(key, default)] takes the last value posted
    under the key. *)
Record request : Type := mkRequest {
  method : string;
  POST : list (string * string) }.

Fixpoint post_get (fields : list (string * string)) (key default : string) : string :=
  match fields with
  | [] => default
  | (k, v) :: rest => post_get rest key (if String.eqb k key then v else default)
  end.

(** What a view answers: a rendered template with its context, a JSON
    body with its status, or a stored file sent back with its content type
    and headers. *)
Inductive response : Type :=
| Render (template : string) (context : pydict)
| JsonResponse (status : Z) (body : pydict)
| HttpResponse (content : report_file) (content_type : string)
               (headers : list (string * string)).

(** The views can raise what the chain raises, and [IndexError]. *)
Inductive view_exn : Type :=
| ChainError (e : exn)
| IndexError.

Inductive answered (A : Type) : Type :=
| Answer (a : A)
| Crash (e : view_exn).
Arguments Answer {A} a.
Arguments Crash {A} e.

Definition of_outcome {A : Type} (o : outcome A) : answered A :=
  match o with
  | Ret a => Answer a
  | Raise e => Crash (ChainError e)
  end.

Definition abind {A B : Type} (a : answered A) (k : A -> answered B) : answered B :=
  match a with
  | Answer x => k x
  | Crash e => Crash e
  end.

(** [len(v)] *)
Definition py_len (v : pyval) : answered Z :=
  match v with
  | PList l => Answer (Z.of_nat (List.length l))
  | PDict d => Answer (Z.of_nat (List.length d))
  | PStr s => Answer (str_len s)
  | _ => Crash (ChainError TypeError)
  end.

(** [v[-1]]: the last element of a list, the last character of a string;
    a dictionary is asked for the key -1, which the keys of a JSON object,
    all strings, never are. *)
Definition py_last (v : pyval) : answered pyval :=
  match v with
  | PList l =>
      match rev l with
      | [] => Crash IndexError
      | x :: _ => Answer x
      end
  | PStr s =>
      match s with
      | EmptyString => Crash IndexError
      | _ => Answer (PStr (last_char s EmptyString))
      end
  | PDict _ => Crash (ChainError (KeyError "-1"))
  | _ => Crash (ChainError TypeError)
  end.

(** [sum(1 for e in entries if e.get('integrity_check') == 'FAIL')] *)
Fixpoint count_failed (entries : list pyval) : outcome Z :=
  match entries with
  | [] => Ret 0
  | e :: rest =>
      obind (py_get e "integrity_check" PNone)
        (fun c => obind (count_failed rest)
           (fun n => Ret (if py_eq_str c "FAIL" then 1 + n else n)))
  end.

(** ** [view_evidence_chain] *)

(** The view reads the JSON document and writes nothing; it answers with
    the template and its context. *)
Definition view_evidence_chain (w : world) : answered response :=
  match fst (json_exists w) with
  | Ret true =>
      abind (of_outcome (fst (json_load w))) (fun evidence_data =>
      abind (of_outcome (py_get evidence_data "evidence_chain" (PList []))) (fun chain =>
      abind (py_len chain) (fun total_entries =>
      abind (of_outcome (py_get evidence_data "evidence_chain" (PList [PDict []])))
        (fun chain1 =>
      abind (py_last chain1) (fun last =>
      abind (of_outcome (py_get last "timestamp" (PStr "N/A"))) (fun last_update =>
      abind (of_outcome (obind (py_iter chain) count_failed)) (fun files_with_errors =>
      Answer (Render "collector/evidence_chain.html"
        [("evidence_chain", chain);
         ("stats", PDict
            [("total_entries", PInt total_entries);
             ("last_update", last_update);
             ("files_with_errors", PInt files_with_errors)])]))))))))
  | _ =>
      Answer (Render "collector/evidence_chain.html"
        [("evidence_chain", PList []);
         ("stats", PDict [("total_entries", PInt 0)])])
  end.

(** ** [download_report] *)

(** The view reads the stored page and writes nothing.  The store holds
    the files of the reports directory: an identifier that leads out of it
    finds nothing here. *)
Definition download_report (report_id : string) (w : world) : response :=
  let report_file :=
    "collector/static/collected_data/forensic_reports/" ++ report_id ++ ".html" in
  match reports w !! report_file with
  | Some content =>
      HttpResponse content "text/html"
        [("Content-Disposition",
          "attachment; filename=" ++ dquote ++ report_id ++ ".html" ++ dquote)]
  | None => JsonResponse 404 [("error", PStr "Rapport non trouvé")]
  end.

(** ** [generate_forensic_report_view] *)

Definition get_latest_extraction_data : pydict := latest_extraction_data.

(** [report['report_id']] is the text [generate_forensic_report] put
    there; [save_report_files] formats it into the two paths. *)
Definition generate_forensic_report_view (req : request) : M response :=
  if String.eqb (method req) "POST" then
    let scenario_data :=
      [("case_name", PStr (post_get (POST req) "case_name" "Investigation Android"));
       ("case_number", PStr (post_get (POST req) "case_number" "CS-2024-001"));
       ("incident_date", PStr (post_get (POST req) "incident_date" EmptyString));
       ("location", PStr (post_get (POST req) "location" EmptyString));
       ("description", PStr (post_get (POST req) "description" EmptyString))] in
    let extraction_data := get_latest_extraction_data in
    report <- generate_forensic_report extraction_data (Some scenario_data) ;;
    report_id <- lift (py_getitem (PDict report) "report_id") ;;
    files <- (match report_id with
              | PStr id => save_report_files (PDict report) id
              | _ => raise TypeError
              end) ;;
    ret (JsonResponse 200
           [("status", PStr "success");
            ("message", PStr "Rapport généré avec succès");
            ("report_id", report_id);
            ("files", PDict files)])
  else ret (Render "collector/generate_report.html" []).

(** The clock moves. *)
Definition set_now (t : datetime) (w : world) : world :=
  mkWorld (files w) (evidence_dir_ok w) (csv_log w) (csv_writable w)
          (json_log w) (json_writable w) (reports_dir_ok w)
          (reports_writable w) (reports w) t.

(** ** More concrete states *)

(** A second [calls.txt], in another directory and with other contents. *)
Definition backup_calls_txt : string :=
  "collector/static/collected_data/backup/calls.txt".

Definition two_directories : gmap string file :=
  <[backup_calls_txt := calls_v2]> (one_file calls_v1).

(** What follows a first record of [calls.txt] here: the backup appears,
    both files are recorded. *)
Definition backup_history : list event :=
  [Env two_directories evening true true true;
   Call calls_txt "calls_extraction";
   Call backup_calls_txt "backup"].

(** A ledger document that parses and is not the object the chain writes:
    here the bare array of one record. *)
Definition w_array_document : world :=
  set_json_log (Doc (PList [PDict first_entry]))
    (bare_world (one_file calls_v2)).

(** A ledger document emptied by hand. *)
Definition w_emptied_document : world :=
  set_json_log (Doc (PDict [("evidence_chain", PList [])])) (bare_world ∅).

(** ** The page of the evidence chain *)

Definition chain_page (chain : list pyval) (stats : pydict) : response :=
  Render "collector/evidence_chain.html"
    [("evidence_chain", PList chain); ("stats", PDict stats)].

(** A history with a call that fails in the middle. *)
Definition three_calls : list event :=
  [Call calls_txt "calls_extraction";
   Call sms_txt "sms_extraction";
   Env (one_file calls_v2) evening true true true;
   Call calls_txt "calls_extraction"].

(** ** Stored reports *)

(** The state after the report [report] and its page were stored under
    the identifier [id]. *)
Definition stored (id : string) (report : pydict) (page : list pyval)
    (w : world) : world :=
  set_reports
    (<[report_path id ".html" := ReportHtml page]>
       (<[report_path id ".json" := ReportJson (PDict report)]> (reports w)))
    w.

(** The text of a path as a response gives it, below [collector/static/]. *)
Definition web_path (report_id ext : string) : string :=
  "collected_data/forensic_reports/" ++ report_id ++ ext.

(** Texts without the letter c: the digits of a date among them. *)
Fixpoint no_c (s : string) : bool :=
  match s with
  | EmptyString => true
  | String ch r => negb (Ascii.eqb ch "c") && no_c r
  end.

(** The keys of [artefacts_extracted]. *)
Definition artefact_kinds : list string :=
  ["contacts"; "calls"; "sms"; "whatsapp"; "images"; "videos"; "audio";
   "documents"; "browsing_history"; "location_data"; "google_maps";
   "wifi_networks"; "installed_apps"].

Definition is_dict (v : pyval) : bool :=
  match v with PDict _ => true | _ => false end.

(** A form as posted, and a second clock reading within the same second
    as [morning]. *)
Definition form_x : request :=
  mkRequest "POST" [("case_name", "Affaire X"); ("location", "Dakar")].

Definition same_second : datetime := mkDatetime 2024 5 17 9 3 7 990000.

Definition affaire_y : pydict := [("case_name", PStr "Affaire Y")].

(** The case metadata [generate_forensic_report_view] makes of a form. *)
Definition form_scenario (req : request) : pydict :=
  [("case_name", PStr (post_get (POST req) "case_name" "Investigation Android"));
   ("case_number", PStr (post_get (POST req) "case_number" "CS-2024-001"));
   ("incident_date", PStr (post_get (POST req) "incident_date" EmptyString));
   ("location", PStr (post_get (POST req) "location" EmptyString));
   ("description", PStr (post_get (POST req) "description" EmptyString))].

(** ** Sizes and audio types *)

Definition size_units : list string := ["B"; "KB"; "MB"; "GB"; "TB"].

(** The extensions [get_audio_mime_type] knows, with their types. *)
Definition audio_types : list (string * string) :=
  [(".aac", "audio/aac"); (".m4a", "audio/mp4"); (".ogg", "audio/ogg");
   (".wav", "audio/wav"); (".mp3", "audio/mpeg"); (".amr", "audio/amr");
   (".flac", "audio/flac")].

(** * Properties *)

(** ** Paths, sizes and dates on examples *)

Example basename_examples :
  map basename ["a/b/c.txt"; "c.txt"; "a/"; "/x"] = ["c.txt"; "c.txt"; EmptyString; "x"].
Proof. reflexivity. Qed.

Example os_path_join_examples :
  map (fun ab => os_path_join (fst ab) (snd ab))
      [("a/b", "c"); ("a/b/", "c"); ("a", "/c"); (EmptyString, "c")]
  = ["a/b/c"; "a/b/c"; "/c"; "c"].
Proof. reflexivity. Qed.

Example str_replace_examples :
  str_replace "collector/static/" EmptyString 0
    "collector/static/collected_data/collector/static/x" = "collected_data/x"
  /\ str_replace "aa" "b" 0 "aaaaa" = "bba".
Proof. split; reflexivity. Qed.

Example format_file_size_examples :
  map format_file_size [0; 12; 1023; 1024; 1152; 1536; 123456789; 5000000000000]
  = ["0 B"; "12.00 B"; "1023.00 B"; "1.00 KB"; "1.12 KB"; "1.50 KB";
     "117.74 MB"; "4.55 TB"].
Proof. vm_compute. reflexivity. Qed.

Example datetime_examples :
  isoformat morning = "2024-05-17T09:03:07.000123"
  /\ isoformat evening = "2024-05-17T21:40:00"
  /\ strftime_compact morning = "20240517-090307"
  /\ strftime_acquisition morning = "2024-05-d 09:03:07".
Proof. vm_compute. repeat split. Qed.

(** ** The digest engine *)

(** Published test vectors of the three functions. *)
Example sha256_abc :
  Hashlib.hexlify (Hashlib.sha256 (Hashlib.ascii_bytes "abc"))
  = "ba7816bf8f01cfea414140de5dae2223b00361a396177a9cb410ff61f20015ad".
Proof. vm_compute. reflexivity. Qed.

Example sha256_empty :
  Hashlib.hexlify (Hashlib.sha256 [])
  = "e3b0c44298fc1c149afbf4c8996fb92427ae41e4649b934ca495991b7852b855".
Proof. vm_compute. reflexivity. Qed.

Example sha256_two_blocks :
  Hashlib.hexlify (Hashlib.sha256 (repeat 97 120))
  = "2f3d335432c70b580af0e8e1b3674a7c020d683aa5f73aaaedfdc55af904c21c".
Proof. vm_compute. reflexivity. Qed.

Example sha1_abc :
  Hashlib.hexlify (Hashlib.sha1 (Hashlib.ascii_bytes "abc"))
  = "a9993e364706816aba3e25717850c26c9cd0d89d".
Proof. vm_compute. reflexivity. Qed.

Example sha1_two_blocks :
  Hashlib.hexlify (Hashlib.sha1 (repeat 97 119))
  = "ee971065aaa017e0632a8ca6c77bb3bf8b1dfc56".
Proof. vm_compute. reflexivity. Qed.

Example md5_abc :
  Hashlib.hexlify (Hashlib.md5 (Hashlib.ascii_bytes "abc"))
  = "900150983cd24fb0d6963f7d28e17f72".
Proof. vm_compute. reflexivity. Qed.

Example md5_two_blocks :
  Hashlib.hexlify (Hashlib.md5 (repeat 97 64))
  = "014842d480b571495a4a0363793f7367".
Proof. vm_compute. reflexivity. Qed.

Lemma digest_length (alg : Hashlib.algorithm) (msg : list Z) :
  length (Hashlib.digest alg msg) = Hashlib.digest_size alg.
Proof.
  destruct alg; unfold Hashlib.digest, Hashlib.md5, Hashlib.sha1, Hashlib.sha256.
  - destruct (fold_left _ _ _) as [[[a b] c] d]. reflexivity.
  - destruct (fold_left _ _ _) as [[[[a b] c] d] e]. reflexivity.
  - destruct (fold_left _ _ _) as [[[[[[[a b] c] d] e] f] g] h]. reflexivity.
Qed.

Lemma hex_digit_lower (n : Z) : In (Hashlib.hex_digit n) Hashlib.hex_alphabet.
Proof.
  unfold Hashlib.hex_digit.
  destruct (nth_in_or_default (Z.to_nat n) Hashlib.hex_alphabet "0"%char) as [H | H].
  - exact H.
  - rewrite H. left. reflexivity.
Qed.

Lemma hexlify_length (bs : list Z) :
  String.length (Hashlib.hexlify bs) = (2 * length bs)%nat.
Proof.
  induction bs as [| b r IH]; simpl; [reflexivity | rewrite IH; lia].
Qed.

Lemma hexlify_lower (bs : list Z) :
  Forall (fun c => In c Hashlib.hex_alphabet)
         (list_ascii_of_string (Hashlib.hexlify bs)).
Proof.
  induction bs as [| b r IH]; simpl.
  - constructor.
  - constructor; [apply hex_digit_lower |].
    constructor; [apply hex_digit_lower | exact IH].
Qed.

(** The chunked loop feeds the whole file, whatever the chunk size. *)
Lemma read_chunks_all (size fuel : nat) :
  (0 < size)%nat ->
  forall (rest : list Z) (h : Hashlib.hash_obj),
    (length rest < fuel)%nat ->
    read_chunks size fuel rest h = Hashlib.update h rest.
Proof.
  intros Hsize. induction fuel as [| fuel IH]; intros rest h Hlen; [lia |].
  simpl. destruct (firstn size rest) as [| c chunk] eqn:Hchunk.
  - assert (rest = []) as ->.
    { destruct rest as [| x rest]; [reflexivity |].
      destruct size; [lia | discriminate]. }
    destruct h as [alg fed]. unfold Hashlib.update. simpl.
    now rewrite app_nil_r.
  - rewrite IH.
    + unfold Hashlib.update. simpl. f_equal.
      rewrite <- Hchunk, <- app_assoc. f_equal. apply firstn_skipn.
    + assert (length rest <> 0)%nat by (destruct rest; [destruct size; discriminate | discriminate]).
      rewrite length_skipn. lia.
Qed.

Ltac run_py :=
  cbv beta iota zeta delta
    [bind ret raise try_except lift get_world put_world
     datetime_now os_path_getsize os_stat open_rb os_path_exists
     json_exists json_load json_dump os_makedirs_evidence
     open_csv_append csv_write_line writerow].

Lemma calculate_hash_eq (p : string) (alg : Hashlib.algorithm) (w : world) :
  calculate_hash p alg w = (Ret (hash_text w p alg), w).
Proof.
  unfold calculate_hash, hash_text, file_digest. run_py.
  destruct (files w !! p) as [f |]; [| reflexivity].
  destruct (f_readable f); [| reflexivity].
  rewrite read_chunks_all by lia.
  reflexivity.
Qed.

(** C5 (as the code has it).  [calculate_hash] never raises and changes
    nothing.  For a file that can be opened it returns the lowercase
    hexadecimal digest of the whole contents, read 4096 bytes at a time;
    for a path that is missing or cannot be opened it returns the text
    ERROR. *)
Theorem calculate_hash_total (p : string) (alg : Hashlib.algorithm) (w : world) :
  exists s,
    calculate_hash p alg w = (Ret s, w) /\
    match files w !! p with
    | Some f =>
        if f_readable f
        then s = Hashlib.hexlify (Hashlib.digest alg (map byte_val (f_bytes f)))
             /\ lower_hex alg s
        else s = "ERROR"
    | None => s = "ERROR"
    end.
Proof.
  exists (hash_text w p alg). split; [apply calculate_hash_eq |].
  unfold hash_text, file_digest.
  destruct (files w !! p) as [f |]; [| reflexivity].
  destruct (f_readable f); [| reflexivity].
  split; [reflexivity |]. unfold lower_hex. split.
  - now rewrite hexlify_length, digest_length.
  - apply hexlify_lower.
Qed.

(** C5, counterexample: on a path that does not exist nothing is raised. *)
Lemma calculate_hash_does_not_raise :
  ~ digest_raises_when_unopenable (bare_world ∅) calls_txt Hashlib.SHA256.
Proof.
  intros H. destruct H as [e He].
  - reflexivity.
  - revert He. vm_compute. discriminate.
Qed.

(** ** The recorder *)

Lemma save_to_json_log_eq (entry : pydict) (w : world) :
  save_to_json_log entry w =
  if json_writable w
  then (Ret tt, set_json_log (Doc (appended_doc (json_log w) entry)) w)
  else (Raise (PermissionError json_file), w).
Proof.
  unfold save_to_json_log, appended_doc. run_py.
  destruct (json_log w) as [| | data] eqn:Hlog;
    destruct (json_writable w) eqn:Hw;
    try destruct (append_entry data entry) as [data' | e] eqn:Happ;
    repeat (progress (cbn; rewrite ?Hlog, ?Hw, ?Happ)); reflexivity.
Qed.

Lemma save_to_evidence_log_eq (entry : pydict) (w : world) :
  known_fields entry = true ->
  save_to_evidence_log entry w =
  if negb (evidence_dir_ok w) then (Raise (PermissionError evidence_dir), w)
  else if negb (csv_writable w) then (Raise (PermissionError log_file), w)
  else
    let w1 := set_csv_log (Some (csv_appended (csv_log w) entry)) w in
    if json_writable w
    then (Ret tt, set_json_log (Doc (appended_doc (json_log w) entry)) w1)
    else (Raise (PermissionError json_file), w1).
Proof.
  intros Hk. unfold save_to_evidence_log.
  destruct w as [fs dok c cw j jw rok rw rs t].
  destruct dok, cw, c as [lines |];
    repeat (progress (run_py; cbn -[save_to_json_log known_fields];
                      rewrite ?Hk, ?save_to_json_log_eq));
    try reflexivity; destruct jw; reflexivity.
Qed.

Lemma evidence_entry_known (w : world) (p op : string) (f : file) :
  known_fields (evidence_entry w p op f) = true.
Proof. reflexivity. Qed.

(** [create_evidence_chain], case by case. *)
Lemma create_evidence_chain_eq (p op : string) (w : world) :
  create_evidence_chain p op w =
  match files w !! p with
  | None => (Ret (degraded_entry w p (FileNotFoundError p)), w)
  | Some f =>
      let entry := evidence_entry w p op f in
      if negb (evidence_dir_ok w)
      then (Ret (degraded_entry w p (PermissionError evidence_dir)), w)
      else if negb (csv_writable w)
      then (Ret (degraded_entry w p (PermissionError log_file)), w)
      else
        let w1 := set_csv_log (Some (csv_appended (csv_log w) entry)) w in
        if json_writable w
        then (Ret entry, set_json_log (Doc (appended_doc (json_log w) entry)) w1)
        else (Ret (degraded_entry w p (PermissionError json_file)), w1)
  end.
Proof.
  unfold create_evidence_chain.
  destruct (files w !! p) as [f |] eqn:Hf.
  - repeat (progress (
      cbv beta iota zeta delta
        [bind ret try_except os_path_getsize os_path_getmtime
         os_path_getctime os_stat datetime_now];
      rewrite ?Hf, ?calculate_hash_eq)).
    change (save_to_evidence_log _ w)
      with (save_to_evidence_log (evidence_entry w p op f) w).
    rewrite save_to_evidence_log_eq by apply evidence_entry_known.
    destruct (evidence_dir_ok w); [| reflexivity].
    destruct (csv_writable w); [| reflexivity].
    destruct (json_writable w); reflexivity.
  - cbv beta iota zeta delta
      [bind ret try_except os_path_getsize os_stat datetime_now].
    rewrite Hf. reflexivity.
Qed.

Lemma passed_degraded (w : world) (p : string) (e : exn) :
  passed (degraded_entry w p e) = false.
Proof. reflexivity. Qed.

Lemma passed_entry (w : world) (p op : string) (f : file) :
  passed (evidence_entry w p op f) = true.
Proof. reflexivity. Qed.

(** A record call that went through: what it returned and what it left. *)
Lemma create_passed (p op : string) (w w1 : world) (r : pydict) :
  create_evidence_chain p op w = (Ret r, w1) ->
  passed r = true ->
  exists f,
    files w !! p = Some f /\
    r = evidence_entry w p op f /\
    w1 = set_json_log (Doc (appended_doc (json_log w) r))
           (set_csv_log (Some (csv_appended (csv_log w) r)) w).
Proof.
  rewrite create_evidence_chain_eq.
  destruct (files w !! p) as [f |].
  2: { intros H; inversion H; subst. now rewrite passed_degraded. }
  cbv zeta.
  destruct (evidence_dir_ok w); cbn [negb].
  2: { intros H; inversion H; subst. now rewrite passed_degraded. }
  destruct (csv_writable w); cbn [negb].
  2: { intros H; inversion H; subst. now rewrite passed_degraded. }
  destruct (json_writable w).
  2: { intros H; inversion H; subst. now rewrite passed_degraded. }
  intros H _. inversion H; subst. eauto.
Qed.

(** C3 (as the code has it).  [create_evidence_chain] always returns a
    record.  When the file is missing, or the ledger directory, the CSV log
    or the JSON document cannot be written, the exception is turned into the
    degraded record: [integrity_check] is FAIL and [error] holds the text of
    the exception.  That record is only returned: the JSON document is left
    as it was. *)
Theorem record_never_raises (p op : string) (w : world) :
  exists r w1,
    create_evidence_chain p op w = (Ret r, w1) /\
    (files w !! p = None \/ evidence_dir_ok w = false \/
     csv_writable w = false \/ json_writable w = false ->
     (exists e, r = degraded_entry w p e) /\
     dict_get r "integrity_check" PNone = PStr "FAIL" /\
     dict_has r "error" = true /\
     json_log w1 = json_log w).
Proof.
  rewrite create_evidence_chain_eq.
  destruct (files w !! p) as [f |] eqn:Hf.
  2: { do 2 eexists. split; [reflexivity |]. intros _. eauto 6. }
  cbv zeta.
  destruct (evidence_dir_ok w); cbn [negb].
  2: { do 2 eexists. split; [reflexivity |]. intros _. eauto 6. }
  destruct (csv_writable w); cbn [negb].
  2: { do 2 eexists. split; [reflexivity |]. intros _. eauto 6. }
  destruct (json_writable w).
  2: { do 2 eexists. split; [reflexivity |]. intros _. eauto 6. }
  do 2 eexists. split; [reflexivity |].
  intros [H | [H | [H | H]]]; discriminate.
Qed.

Lemma record_never_raises_witness :
  exists r w1,
    create_evidence_chain calls_txt "calls_extraction" w_read_only = (Ret r, w1) /\
    (files w_read_only !! calls_txt = None \/ evidence_dir_ok w_read_only = false \/
     csv_writable w_read_only = false \/ json_writable w_read_only = false ->
     (exists e, r = degraded_entry w_read_only calls_txt e) /\
     dict_get r "integrity_check" PNone = PStr "FAIL" /\
     dict_has r "error" = true /\
     json_log w1 = json_log w_read_only).
Proof.
  exact (record_never_raises calls_txt "calls_extraction" w_read_only).
Defined.

(** C3, counterexample: recording a path that does not exist returns the
    degraded record and writes it nowhere. *)
Lemma failure_is_not_logged :
  ~ failure_is_logged (bare_world ∅) calls_txt "calls_extraction".
Proof.
  intros H.
  edestruct H as (l & Hl & Hin).
  - vm_compute. reflexivity.
  - reflexivity.
  - revert Hl Hin. vm_compute. intros Hl. inversion Hl; subst l. tauto.
Qed.

(** C4, at its failing input.  Recording a file that exists and cannot be
    opened goes through: the record says PASS, holds the text ERROR in its
    three digest fields, and is appended to the ledger. *)
Theorem placeholder_digest_recorded :
  exists r,
    fst (create_evidence_chain calls_txt "calls_extraction"
           (bare_world (one_file locked))) = Ret r /\
    dict_get r "sha256" PNone = PStr "ERROR" /\
    dict_get r "integrity_check" PNone = PStr "PASS" /\
    read_all w_locked_recorded = Some [PDict r].
Proof.
  eexists. split; [vm_compute; reflexivity |].
  split; [reflexivity |]. split; [reflexivity |].
  vm_compute. reflexivity.
Qed.

(** For a file that can be opened, the digests of a record are the real
    ones. *)
Lemma recorded_digest_genuine
    (w w1 : world) (p op : string) (r : pydict) (f : file) :
  create_evidence_chain p op w = (Ret r, w1) ->
  passed r = true ->
  files w !! p = Some f ->
  f_readable f = true ->
  dict_get r "sha256" PNone = PStr (file_digest Hashlib.SHA256 f) /\
  lower_hex Hashlib.SHA256 (file_digest Hashlib.SHA256 f).
Proof.
  intros Hrec Hpass Hf Hread.
  destruct (create_passed _ _ _ _ _ Hrec Hpass) as (f' & Hf' & -> & _).
  rewrite Hf in Hf'. inversion Hf'; subst f'. split.
  - cbn. unfold hash_text. now rewrite Hf, Hread.
  - unfold lower_hex, file_digest. split.
    + now rewrite hexlify_length, digest_length.
    + apply hexlify_lower.
Qed.

(** ** The ledger over a history of calls *)

Lemma dict_get_set (d : pydict) (k : string) (v dflt : pyval) :
  dict_get (dict_set d k v) k dflt = v.
Proof.
  induction d as [| [k' v'] r IH]; cbn.
  - now rewrite String.eqb_refl.
  - destruct (String.eqb k' k) eqn:E; cbn.
    + now rewrite String.eqb_refl.
    + now rewrite E.
Qed.

Lemma dict_get_default (d : pydict) (k : string) (a b : pyval) :
  dict_has d k = true -> dict_get d k a = dict_get d k b.
Proof.
  induction d as [| [k' v'] r IH]; cbn; [discriminate |].
  destruct (String.eqb k' k); cbn; [reflexivity | exact IH].
Qed.

Lemma dict_get_absent (d : pydict) (k : string) (a : pyval) :
  dict_has d k = false -> dict_get d k a = a.
Proof.
  induction d as [| [k' v'] r IH]; cbn; [reflexivity |].
  destruct (String.eqb k' k); cbn; [discriminate | exact IH].
Qed.

Lemma chain_of_appended (j : docfile) (entry : pydict) :
  chain_of (appended_doc j entry)
  = Some (default [] (records j) ++ [PDict entry])%list.
Proof.
  destruct j as [| | data]; cbn; try reflexivity.
  destruct data as [| | | | | d]; try reflexivity. cbn.
  destruct (dict_has d "evidence_chain") eqn:Hhas.
  - rewrite (dict_get_default d _ PNone (PList [])) by exact Hhas.
    destruct (dict_get d "evidence_chain" (PList [])) as [| | | | l' |];
      try reflexivity.
    cbn. now rewrite dict_get_set.
  - rewrite dict_get_absent by exact Hhas. reflexivity.
Qed.

Lemma create_step (p op : string) (w : world) :
  exists r w1,
    create_evidence_chain p op w = (Ret r, w1) /\
    (forall l, read_all w = Some l ->
       read_all w1 = Some (l ++ (if passed r then [PDict r] else []))%list) /\
    (exists rows, csv_lines w1 = (csv_lines w ++ rows)%list) /\
    (passed r = true -> csv_log w1 = Some (csv_appended (csv_log w) r)).
Proof.
  rewrite create_evidence_chain_eq.
  assert (Hsame : forall e,
    (forall l, read_all w = Some l ->
       read_all w = Some (l ++ (if passed (degraded_entry w p e) then
                                  [PDict (degraded_entry w p e)] else []))%list) /\
    (exists rows, csv_lines w = (csv_lines w ++ rows)%list) /\
    (passed (degraded_entry w p e) = true ->
     csv_log w = Some (csv_appended (csv_log w) (degraded_entry w p e)))).
  { intros e. split; [| split].
    - intros l Hl. rewrite passed_degraded, app_nil_r. exact Hl.
    - exists []. now rewrite app_nil_r.
    - rewrite passed_degraded. discriminate. }
  destruct (files w !! p) as [f |]; [| eauto].
  cbv zeta.
  destruct (evidence_dir_ok w); cbn [negb]; [| eauto].
  destruct (csv_writable w); cbn [negb]; [| eauto].
  assert (Hcsv : exists rows,
    default [] (Some (csv_appended (csv_log w) (evidence_entry w p op f)))
    = (csv_lines w ++ rows)%list).
  { unfold csv_lines, csv_appended. destruct (csv_log w) as [lines |]; cbn; eauto. }
  destruct (json_writable w).
  - do 2 eexists. split; [reflexivity |]. split; [| split; [exact Hcsv | reflexivity]].
    intros l Hl. rewrite passed_entry. unfold read_all in *. cbn.
    rewrite chain_of_appended, Hl. reflexivity.
  - do 2 eexists. split; [reflexivity |]. split; [| split; [exact Hcsv |]].
    + intros l Hl. rewrite passed_degraded, app_nil_r. exact Hl.
    + rewrite passed_degraded. discriminate.
Qed.

(** C6.  Over any history of record calls, with the environment changing
    files, clock and permissions in between, the ledger only grows at its
    end: the document read after the history is the document read before it
    followed by the records of the calls that went through, in call order.
    From an empty ledger, N successful calls leave exactly their N records.
    The CSV log keeps its lines and gains lines at its end; when every call
    of the history went through, the lines gained are the rows of the
    records, in call order, after the header if the log was created. *)
Theorem ledger_append_only (evs : list event) (w : world) (l : list pyval) :
  read_all w = Some l ->
  read_all (snd (run evs w))
  = Some (l ++ map PDict (List.filter passed (fst (run evs w))))%list /\
  (exists rows, csv_lines (snd (run evs w)) = (csv_lines w ++ rows)%list) /\
  (forallb passed (fst (run evs w)) = true ->
   csv_lines (snd (run evs w))
   = (csv_lines w ++ csv_header (csv_log w) (fst (run evs w))
        ++ map csv_row (fst (run evs w)))%list).
Proof.
  revert w l. induction evs as [| ev rest IH]; intros w l Hl.
  - cbn. rewrite app_nil_r. split; [exact Hl |]. split.
    + exists []. now rewrite app_nil_r.
    + intros _. destruct (csv_log w); now rewrite app_nil_r.
  - destruct ev as [p op | fs t d c j].
    + destruct (create_step p op w)
        as (r & w1 & Hrun & Hread & [rows1 Hcsv] & Hrow).
      cbn [run]. rewrite Hrun.
      destruct (run rest w1) as [rs w2] eqn:Hrest.
      destruct (IH w1 _ (Hread l Hl)) as (Hjson & [rows2 Hrows] & Hall).
      rewrite Hrest in Hjson, Hrows, Hall. cbn [fst snd] in *.
      split; [| split].
      * rewrite Hjson, <- app_assoc. cbn [List.filter].
        destruct (passed r); reflexivity.
      * exists (rows1 ++ rows2)%list. now rewrite Hrows, Hcsv, app_assoc.
      * cbn [forallb]. intros Hpass. apply andb_prop in Hpass as [Hr Hrs].
        rewrite (Hall Hrs). unfold csv_lines. rewrite (Hrow Hr).
        cbn [from_option id csv_header map].
        unfold csv_appended. destruct (csv_log w) as [lines |]; cbn.
        -- now rewrite <- app_assoc.
        -- reflexivity.
    + cbn [run]. apply (IH (env_step fs t d c j w) l). exact Hl.
Qed.

Lemma ledger_append_only_witness :
  read_all w_recorded_twice
  = Some ([] ++ map PDict (List.filter passed
             (fst (run recorded_twice (bare_world (one_file calls_v1))))))%list /\
  (exists rows,
     csv_lines w_recorded_twice
     = (csv_lines (bare_world (one_file calls_v1)) ++ rows)%list) /\
  (forallb passed (fst (run recorded_twice (bare_world (one_file calls_v1)))) = true ->
   csv_lines w_recorded_twice
   = (csv_lines (bare_world (one_file calls_v1))
        ++ csv_header (csv_log (bare_world (one_file calls_v1)))
             (fst (run recorded_twice (bare_world (one_file calls_v1))))
        ++ map csv_row (fst (run recorded_twice (bare_world (one_file calls_v1)))))%list).
Proof.
  apply (ledger_append_only recorded_twice (bare_world (one_file calls_v1)) []).
  reflexivity.
Defined.

(** Two calls on an empty ledger: two records, and the header with two
    rows. *)
Example recorded_twice_counts :
  option_map (@List.length pyval) (read_all w_recorded_twice) = Some 2%nat
  /\ List.length (csv_lines w_recorded_twice) = 3%nat.
Proof. vm_compute. split; reflexivity. Qed.

(** ** The verifier *)

Lemma verify_integrity_eq (p : string) (w : world) :
  verify_integrity p w =
  match files w !! p with
  | None => (Ret (error_result "Fichier introuvable"), w)
  | Some _ =>
      match json_log w with
      | DocAbsent => (Ret (error_result "Aucune preuve enregistrée"), w)
      | DocCorrupt => (Raise JSONDecodeError, w)
      | Doc data =>
          match lookup_entry data (basename p) with
          | Raise e => (Raise e, w)
          | Ret original_entry =>
              if negb (py_truth original_entry)
              then (Ret (error_result "Preuve originale introuvable"), w)
              else
                match py_get original_entry "sha256" PNone with
                | Raise e => (Raise e, w)
                | Ret original_hash =>
                    (Ret (verdict original_hash (hash_text w p Hashlib.SHA256)), w)
                end
          end
      end
  end.
Proof.
  unfold verify_integrity, lookup_entry, verdict.
  unfold bind at 1. unfold os_path_exists.
  destruct (files w !! p) as [f |] eqn:Hf.
  2: { rewrite bool_decide_eq_false_2 by (intros [x Hx]; discriminate). reflexivity. }
  rewrite bool_decide_eq_true_2 by eauto. cbn [negb].
  unfold bind at 1. unfold json_exists.
  destruct (json_log w) as [| | data] eqn:Hlog; cbn [negb]; [reflexivity | |].
  - unfold bind at 1. unfold json_load. rewrite Hlog. reflexivity.
  - unfold bind at 1. unfold json_load. rewrite Hlog.
    unfold bind at 1. unfold lift at 1.
    destruct (py_get data "evidence_chain" (PList [])) as [chain | e]; [| reflexivity].
    cbn [obind]. unfold bind at 1. unfold lift at 1.
    destruct (py_iter chain) as [entries | e]; [| reflexivity].
    cbn [obind]. unfold bind at 1. unfold lift at 1.
    destruct (find_entry (basename p) entries) as [entry | e]; [| reflexivity].
    destruct (negb (py_truth entry)); [reflexivity |].
    unfold bind at 1. rewrite calculate_hash_eq.
    unfold bind at 1. unfold lift at 1.
    destruct (py_get entry "sha256" PNone) as [h | e]; [| reflexivity].
    destruct (py_eq_str h (hash_text w p Hashlib.SHA256)); reflexivity.
Qed.

Lemma find_entry_first (fn : string) (pre post : list pyval) (r : pydict) :
  forallb (other_record fn) pre = true ->
  named fn (PDict r) = true ->
  find_entry fn (pre ++ PDict r :: post) = Ret (PDict r).
Proof.
  intros Hpre Hr. induction pre as [| e pre IH]; cbn in *.
  - now rewrite Hr.
  - apply andb_prop in Hpre as [He Hpre].
    destruct e; try discriminate. cbn in He.
    destruct (py_eq_str _ fn); [discriminate | auto].
Qed.

Lemma find_entry_none (fn : string) (l : list pyval) :
  forallb (other_record fn) l = true -> find_entry fn l = Ret PNone.
Proof.
  induction l as [| e l IH]; cbn; [reflexivity |].
  intros H. apply andb_prop in H as [He Hl].
  destruct e; try discriminate. cbn in He.
  destruct (py_eq_str _ fn); [discriminate | auto].
Qed.

Lemma named_truth (fn : string) (e : pyval) : named fn e = true -> py_truth e = true.
Proof.
  destruct e as [| | | | | d]; try discriminate.
  destruct d; [discriminate | reflexivity].
Qed.

Lemma lookup_entry_chain (data : pyval) (l : list pyval) (fn : string) :
  chain_of data = Some l -> lookup_entry data fn = find_entry fn l.
Proof.
  unfold chain_of, lookup_entry.
  destruct data as [| | | | | d]; try discriminate. cbn.
  destruct (dict_get d "evidence_chain" (PList [])); try discriminate.
  intros H. inversion H. reflexivity.
Qed.

Lemma read_all_doc (w : world) (e : pyval) (l : list pyval) :
  read_all w = Some (e :: l) ->
  exists data, json_log w = Doc data /\ chain_of data = Some (e :: l).
Proof.
  unfold read_all, records. destruct (json_log w) as [| | data]; try discriminate.
  eauto.
Qed.

(** C1 (as the code has it).  [verify_integrity] takes as its reference the
    FIRST record, in ledger order, filed under the base name of the path:
    whatever records follow it, the result carries that record's sha256 as
    [original_hash] and is the comparison of it with the digest of the file
    as it is now. *)
Theorem verify_reference_is_first_match
    (w : world) (p : string) (pre post : list pyval) (r : pydict) :
  is_Some (files w !! p) ->
  read_all w = Some (pre ++ PDict r :: post)%list ->
  forallb (other_record (basename p)) pre = true ->
  named (basename p) (PDict r) = true ->
  verify_integrity p w =
  (Ret (verdict (dict_get r "sha256" PNone) (hash_text w p Hashlib.SHA256)), w).
Proof.
  intros [f Hf] Hall Hpre Hr.
  rewrite verify_integrity_eq, Hf.
  assert (exists data, json_log w = Doc data
                       /\ chain_of data = Some (pre ++ PDict r :: post)%list)
    as (data & Hlog & Hchain).
  { destruct pre; apply read_all_doc; exact Hall. }
  rewrite Hlog, (lookup_entry_chain _ _ _ Hchain).
  rewrite find_entry_first by assumption.
  rewrite (named_truth _ _ Hr). reflexivity.
Qed.

(** In particular: a name recorded for the first time, then recorded again
    after the environment changed the file, is verified against the digest
    of the first call. *)
Lemma first_record_stays_reference
    (w w1 w2 : world) (p1 p2 op1 op2 : string) (r1 r2 : pydict)
    (fs : gmap string file) (t : datetime) (d c j : bool) :
  forallb (other_record (basename p1)) (default [] (read_all w)) = true ->
  create_evidence_chain p1 op1 w = (Ret r1, w1) ->
  passed r1 = true ->
  basename p2 = basename p1 ->
  create_evidence_chain p2 op2 (env_step fs t d c j w1) = (Ret r2, w2) ->
  passed r2 = true ->
  verify_integrity p2 w2 =
  (Ret (verdict (dict_get r1 "sha256" PNone) (hash_text w2 p2 Hashlib.SHA256)), w2).
Proof.
  intros Hnew Hrec1 Hpass1 Hname Hrec2 Hpass2.
  destruct (create_passed _ _ _ _ _ Hrec1 Hpass1) as (f1 & Hf1 & Hr1 & Hw1).
  destruct (create_passed _ _ _ _ _ Hrec2 Hpass2) as (f2 & Hf2 & Hr2 & Hw2).
  assert (Hlog1 : json_log w1 = Doc (appended_doc (json_log w) r1))
    by (subst w1; reflexivity).
  assert (Hlog2 : json_log w2 = Doc (appended_doc (json_log w1) r2))
    by (subst w2; reflexivity).
  assert (Hfiles : files w2 !! p2 = Some f2) by (subst w2; exact Hf2).
  rewrite verify_integrity_eq, Hfiles, Hlog2, Hlog1.
  rewrite (lookup_entry_chain _ _ _ (chain_of_appended _ _)).
  cbn [records]. rewrite chain_of_appended. cbn [from_option id].
  rewrite <- app_assoc. cbn [app]. rewrite Hname.
  assert (Hn1 : named (basename p1) (PDict r1) = true)
    by (subst r1; cbn; apply String.eqb_refl).
  rewrite find_entry_first by assumption.
  rewrite (named_truth _ _ Hn1). reflexivity.
Qed.

Lemma recorded_twice_ledger :
  read_all w_recorded_twice = Some [PDict first_entry; PDict second_entry].
Proof. vm_compute. reflexivity. Qed.

Lemma verify_reference_is_first_match_witness :
  verify_integrity calls_txt w_recorded_twice =
  (Ret (verdict (dict_get first_entry "sha256" PNone)
                (hash_text w_recorded_twice calls_txt Hashlib.SHA256)),
   w_recorded_twice).
Proof.
  apply (verify_reference_is_first_match
           w_recorded_twice calls_txt [] [PDict second_entry]).
  - exists calls_v2. vm_compute. reflexivity.
  - vm_compute. reflexivity.
  - reflexivity.
  - vm_compute. reflexivity.
Defined.

(** C1, counterexample: with [calls.txt] recorded twice under different
    contents, the verification does not compare against the last record. *)
Lemma verify_uses_last_match_fails :
  ~ verify_uses_last_match w_recorded_twice calls_txt.
Proof.
  intros H.
  destruct (H [PDict first_entry; PDict second_entry] second_entry)
    as (res & Hres & Hhash).
  - exists calls_v2. vm_compute. reflexivity.
  - exact recorded_twice_ledger.
  - vm_compute. reflexivity.
  - revert Hres Hhash. vm_compute. intros Hres. inversion Hres; subst res.
    cbn. discriminate.
Qed.

Lemma py_eq_str_eq (v : pyval) (s : string) : py_eq_str v s = true -> v = PStr s.
Proof.
  destruct v; try discriminate. cbn. intros H.
  apply String.eqb_eq in H. now subst.
Qed.

Lemma find_entry_agrees (fn h : string) (l : list pyval) (entry : pydict) :
  forallb (agrees fn h) l = true ->
  named fn (PDict entry) = true ->
  dict_get entry "sha256" PNone = PStr h ->
  exists d, find_entry fn (l ++ [PDict entry]) = Ret (PDict d)
            /\ named fn (PDict d) = true
            /\ dict_get d "sha256" PNone = PStr h.
Proof.
  intros Hl Hn Hh. induction l as [| e l IH]; cbn in *.
  - rewrite Hn. eauto.
  - apply andb_prop in Hl as [He Hl].
    destruct e as [| | | | | d]; try discriminate. cbn in He.
    destruct (py_eq_str (dict_get d "filename" PNone) fn) eqn:E.
    + exists d. cbn. rewrite E. auto using py_eq_str_eq.
    + auto.
Qed.

(** C2 (as the code has it).  A file recorded and verified straight away is
    VERIFIED, with [original_hash] equal to [current_hash], provided no
    earlier record of the ledger filed under the same name carries another
    sha256: the verifier compares against the first record of that name. *)
Theorem record_then_verify_verified
    (w w1 : world) (p op : string) (r : pydict) :
  create_evidence_chain p op w = (Ret r, w1) ->
  passed r = true ->
  no_conflict w p = true ->
  verify_integrity p w1 =
  (Ret [("status", PStr "success");
        ("message", PStr "Intégrité vérifiée ✓");
        ("original_hash", PStr (hash_text w p Hashlib.SHA256));
        ("current_hash", PStr (hash_text w p Hashlib.SHA256));
        ("match", PBool true)], w1).
Proof.
  intros Hrec Hpass Hfree.
  destruct (create_passed _ _ _ _ _ Hrec Hpass) as (f & Hf & Hr & Hw1).
  set (h := hash_text w p Hashlib.SHA256) in *.
  assert (Hfiles : files w1 = files w) by (subst w1; reflexivity).
  assert (Hlog : json_log w1 = Doc (appended_doc (json_log w) r))
    by (subst w1; reflexivity).
  assert (Hh : hash_text w1 p Hashlib.SHA256 = h)
    by (unfold h, hash_text; now rewrite Hfiles).
  rewrite verify_integrity_eq, Hfiles, Hf, Hlog.
  rewrite (lookup_entry_chain _ _ _ (chain_of_appended _ _)).
  destruct (find_entry_agrees (basename p) h (default [] (records (json_log w))) r)
    as (d & Hfind & Hnamed & Hsha).
  - exact Hfree.
  - subst r. cbn. apply String.eqb_refl.
  - subst r. reflexivity.
  - rewrite Hfind, (named_truth _ _ Hnamed). cbn [negb py_get].
    rewrite Hsha, Hh. unfold verdict. cbn [py_eq_str].
    now rewrite String.eqb_refl.
Qed.

Lemma record_then_verify_verified_witness :
  verify_integrity calls_txt w_recorded =
  (Ret [("status", PStr "success");
        ("message", PStr "Intégrité vérifiée ✓");
        ("original_hash",
         PStr (hash_text (bare_world (one_file calls_v1)) calls_txt Hashlib.SHA256));
        ("current_hash",
         PStr (hash_text (bare_world (one_file calls_v1)) calls_txt Hashlib.SHA256));
        ("match", PBool true)], w_recorded).
Proof.
  apply (record_then_verify_verified
           (bare_world (one_file calls_v1)) w_recorded calls_txt "calls_extraction"
           (evidence_entry (bare_world (one_file calls_v1)) calls_txt
              "calls_extraction" calls_v1)).
  - vm_compute. reflexivity.
  - reflexivity.
  - reflexivity.
Defined.

(** C2, counterexample: [calls.txt] was recorded, then extracted again with
    other contents; recording the new file and verifying it straight away
    reports an alteration, since the older record is the reference. *)
Lemma record_then_verify_fails :
  ~ record_then_verify w_reextracted calls_txt "calls_extraction".
Proof.
  intros H.
  edestruct H as (res & Hres & Hst & _).
  - vm_compute. reflexivity.
  - reflexivity.
  - revert Hres Hst. vm_compute. intros Hres. inversion Hres; subst res.
    cbn. discriminate.
Qed.

(** C7 (as the code has it).  For a path that does not exist, for a ledger
    document that does not exist, and for a readable ledger without a
    record under the base name of the path, [verify_integrity] returns an
    error result with the matching message and leaves the state alone. *)
Theorem verify_violation_answered (w : world) (p msg : string) :
  verify_violation w p msg ->
  verify_integrity p w = (Ret (error_result msg), w).
Proof.
  intros H. rewrite verify_integrity_eq.
  destruct H as [Hf | [f Hf] Hlog | data l [f Hf] Hlog Hchain Hnone].
  - now rewrite Hf.
  - now rewrite Hf, Hlog.
  - rewrite Hf, Hlog, (lookup_entry_chain _ _ _ Hchain).
    now rewrite find_entry_none.
Qed.

Lemma verify_violation_answered_witness :
  verify_integrity sms_txt w_recorded_two_files =
  (Ret (error_result "Preuve originale introuvable"), w_recorded_two_files).
Proof.
  apply (verify_violation_answered w_recorded_two_files sms_txt).
  eapply no_reference.
  - exists calls_v2. vm_compute. reflexivity.
  - vm_compute. reflexivity.
  - vm_compute. reflexivity.
  - vm_compute. reflexivity.
Defined.

(** C7, counterexample: on a ledger document that does not parse, the view
    gets no result: [json.load] raises and nothing catches it. *)
Lemma verify_crashes_on_corrupt_ledger :
  ~ verify_answers w_corrupt "calls.txt".
Proof.
  intros [res Hres]. revert Hres. vm_compute. discriminate.
Qed.

(** What the view does there: the exception of [json.load] comes out. *)
Lemma verify_raises_on_corrupt_ledger (w : world) (p : string) :
  is_Some (files w !! p) ->
  json_log w = DocCorrupt ->
  verify_integrity p w = (Raise JSONDecodeError, w).
Proof.
  intros [f Hf] Hlog. now rewrite verify_integrity_eq, Hf, Hlog.
Qed.

(** C8 (as the code has it).  A result of [verify_integrity] is either one
    of its error results, which carry a status and a message only, or it
    carries both hashes, [current_hash] being what [calculate_hash] gave for
    the file. *)
Theorem verify_result_shape (w w' : world) (p : string) (res : pydict) :
  verify_integrity p w = (Ret res, w') ->
  (exists msg, res = error_result msg) \/
  (carries_both_hashes res /\
   dict_get res "current_hash" PNone = PStr (hash_text w p Hashlib.SHA256) /\
   dict_get res "status" PNone <> PStr "error").
Proof.
  rewrite verify_integrity_eq.
  destruct (files w !! p) as [f |].
  2: { intros H; inversion H; eauto. }
  destruct (json_log w) as [| | data].
  1: { intros H; inversion H; eauto. }
  1: discriminate.
  destruct (lookup_entry data (basename p)) as [entry | e]; [| discriminate].
  destruct (negb (py_truth entry)).
  1: { intros H; inversion H; eauto. }
  destruct (py_get entry "sha256" PNone) as [h | e]; [| discriminate].
  intros H; injection H as Hres _; subst res.
  right. unfold verdict, carries_both_hashes.
  destruct (py_eq_str h (hash_text w p Hashlib.SHA256)); cbn;
    repeat split; discriminate.
Qed.

Lemma verify_result_shape_witness :
  (exists msg, verdict (PStr (hash_text w_recorded calls_txt Hashlib.SHA256))
                 (hash_text w_recorded calls_txt Hashlib.SHA256)
               = error_result msg) \/
  (carries_both_hashes
     (verdict (PStr (hash_text w_recorded calls_txt Hashlib.SHA256))
        (hash_text w_recorded calls_txt Hashlib.SHA256)) /\
   dict_get (verdict (PStr (hash_text w_recorded calls_txt Hashlib.SHA256))
               (hash_text w_recorded calls_txt Hashlib.SHA256))
     "current_hash" PNone
   = PStr (hash_text w_recorded calls_txt Hashlib.SHA256) /\
   dict_get (verdict (PStr (hash_text w_recorded calls_txt Hashlib.SHA256))
               (hash_text w_recorded calls_txt Hashlib.SHA256))
     "status" PNone <> PStr "error").
Proof.
  apply (verify_result_shape w_recorded w_recorded calls_txt).
  vm_compute. reflexivity.
Defined.

(** C8, counterexample: the answer for a path that does not exist has no
    hash in it. *)
Lemma verify_error_without_hashes :
  ~ verify_always_carries_hashes (bare_world ∅) calls_txt.
Proof.
  intros H. destruct (H (error_result "Fichier introuvable")) as [H1 _].
  - vm_compute. reflexivity.
  - discriminate H1.
Qed.

(** C9, at its failing input.  [calls.txt] exists and cannot be opened; it
    was recorded in that state, so its record holds the text ERROR for a
    sha256.  The verification fails to digest the file again, compares
    ERROR with ERROR, and reports the integrity as verified. *)
Theorem unreadable_file_verified :
  fst (verify_integrity calls_txt w_locked_recorded)
  = Ret [("status", PStr "success");
         ("message", PStr "Intégrité vérifiée ✓");
         ("original_hash", PStr "ERROR");
         ("current_hash", PStr "ERROR");
         ("match", PBool true)].
Proof. vm_compute. reflexivity. Qed.

(** A positive result always means that the recorded hash is what
    [calculate_hash] returned for the file, digest or not. *)
Lemma verified_means_equal (w w' : world) (p : string) (res : pydict) :
  verify_integrity p w = (Ret res, w') ->
  dict_get res "match" PNone = PBool true ->
  dict_get res "original_hash" PNone = PStr (hash_text w p Hashlib.SHA256).
Proof.
  rewrite verify_integrity_eq.
  destruct (files w !! p) as [f |].
  2: { intros H; injection H as <- _. discriminate. }
  destruct (json_log w) as [| | data].
  1: { intros H; injection H as <- _. discriminate. }
  1: discriminate.
  destruct (lookup_entry data (basename p)) as [entry | e]; [| discriminate].
  destruct (negb (py_truth entry)).
  1: { intros H; injection H as <- _. discriminate. }
  destruct (py_get entry "sha256" PNone) as [h | e]; [| discriminate].
  intros H; injection H as <- _. unfold verdict.
  destruct (py_eq_str h (hash_text w p Hashlib.SHA256)) eqn:E; cbn.
  - intros _. now apply py_eq_str_eq.
  - discriminate.
Qed.

(** ** The report assembler *)

Lemma string_app_inj (a b c : string) : a ++ b = a ++ c -> b = c.
Proof.
  induction a as [| x a IH]; cbn; [auto |].
  intros H. injection H as H. auto.
Qed.

Lemma report_paths_differ (report_id : string) :
  report_path report_id ".json" <> report_path report_id ".html".
Proof.
  unfold report_path. intros H.
  apply string_app_inj in H. apply string_app_inj in H. discriminate H.
Qed.

Lemma os_path_join_reports (report_id ext : string) :
  os_path_join reports_dir (("FR-" ++ report_id) ++ ext)
  = report_path ("FR-" ++ report_id) ext.
Proof. reflexivity. Qed.

(** The values the page of a report built by [generate_forensic_report]
    interpolates: every subscript of the template is there. *)
Lemma save_report_files_ok (report : pyval) (id : string) (w : world)
    (fields : list pyval) :
  reports_dir_ok w = true ->
  reports_writable w = true ->
  generate_html_report report
    (set_reports (<[report_path ("FR-" ++ id) ".json" := ReportJson report]> (reports w)) w)
  = (Ret fields,
     set_reports (<[report_path ("FR-" ++ id) ".json" := ReportJson report]> (reports w)) w) ->
  exists paths,
    save_report_files report ("FR-" ++ id) w =
    (Ret paths,
     set_reports
       (<[report_path ("FR-" ++ id) ".html" := ReportHtml fields]>
          (<[report_path ("FR-" ++ id) ".json" := ReportJson report]> (reports w)))
       w).
Proof.
  intros Hdir Hwr Hhtml. unfold save_report_files.
  unfold bind at 1. unfold os_makedirs_reports. rewrite Hdir.
  rewrite !os_path_join_reports.
  unfold bind at 1. unfold write_report at 1. rewrite Hwr.
  unfold bind at 1. rewrite Hhtml.
  unfold bind at 1. unfold write_report at 1. cbn [reports_writable set_reports].
  rewrite Hwr.
  unfold bind at 1. unfold report_exists.
  eexists. unfold ret. destruct w; reflexivity.
Qed.

(** C10.  [generate_forensic_report] builds its report from its inputs
    alone, the clock giving the identifier and the dates.  With case
    metadata given (a dictionary that is not empty), the case reference and
    the four case fields are the values supplied, and for a key left out
    CS-2024-001, Investigation Android, N/A, N/A and Analyse forensique d'un
    appareil Android; with no metadata (none, or the empty dictionary) they
    are CS-NON-RENSEIGNE, Investigation Standard, N/A, N/A and Analyse
    forensique standard.  So [case_details.case_name] is the case name
    supplied.  The device fields and the fields copied from the extraction
    data are the inputs with their defaults, and each presence flag reads
    Oui when its input is true and Non when it is false or left out.  The
    report is stored as JSON and as a page under [forensic_reports], both
    named after the report identifier; the page interpolates, in the order
    of the template, the identifier twice, the generation date, the case
    name, date and location, the device model, version and manufacturer,
    the acquisition method, tool and date, the total of the counts, five
    presence flags, the three evidence-chain fields, the main findings, the
    recommendations, the disclaimer and the current year. *)
Theorem generate_report_structure
    (extraction_data : pydict) (scenario_data : option pydict) (w : world)
    (device_info : pydict) :
  dict_get extraction_data "device_info" (PDict []) = PDict device_info ->
  reports_dir_ok w = true ->
  reports_writable w = true ->
  exists report w1,
    generate_forensic_report extraction_data scenario_data w = (Ret report, w1) /\
    dict_get report "report_id" PNone = PStr ("FR-" ++ strftime_compact (now w)) /\
    match scenario_data with
    | Some (kv :: rest) =>
        dict_get report "case_reference" PNone
        = dict_get (kv :: rest) "case_number" (PStr "CS-2024-001") /\
        report_at report "case_details" "case_name"
        = dict_get (kv :: rest) "case_name" (PStr "Investigation Android") /\
        report_at report "case_details" "incident_date"
        = dict_get (kv :: rest) "incident_date" (PStr "N/A") /\
        report_at report "case_details" "location"
        = dict_get (kv :: rest) "location" (PStr "N/A") /\
        report_at report "case_details" "description"
        = dict_get (kv :: rest) "description"
            (PStr "Analyse forensique d'un appareil Android")
    | _ =>
        dict_get report "case_reference" PNone = PStr "CS-NON-RENSEIGNE" /\
        report_at report "case_details" "case_name"
        = PStr "Investigation Standard" /\
        report_at report "case_details" "incident_date" = PStr "N/A" /\
        report_at report "case_details" "location" = PStr "N/A" /\
        report_at report "case_details" "description"
        = PStr "Analyse forensique standard"
    end /\
    (forall d, scenario_data = Some d -> dict_has d "case_name" = true ->
       report_at report "case_details" "case_name" = dict_get d "case_name" PNone) /\
    (forall k src missing, In (k, src, missing) device_fields ->
       report_at report "device_information" k = dict_get device_info src missing) /\
    (forall section k src missing,
       In (section, k, src, missing) extraction_fields ->
       report_at report section k = dict_get extraction_data src missing) /\
    (forall k src, In (k, src) finding_flags ->
       report_at report "findings_summary" k
       = PStr (if py_truth (dict_get extraction_data src (PBool false))
               then "Oui" else "Non") /\
       (dict_get extraction_data src (PBool false) = PBool true ->
        report_at report "findings_summary" k = PStr "Oui") /\
       (dict_get extraction_data src (PBool false) = PBool false ->
        report_at report "findings_summary" k = PStr "Non") /\
       (dict_has extraction_data src = false ->
        report_at report "findings_summary" k = PStr "Non")) /\
    reports w1 !! report_path ("FR-" ++ strftime_compact (now w)) ".json"
    = Some (ReportJson (PDict report)) /\
    reports w1 !! report_path ("FR-" ++ strftime_compact (now w)) ".html"
    = Some (ReportHtml
        [PStr ("FR-" ++ strftime_compact (now w));
         PStr ("FR-" ++ strftime_compact (now w));
         PStr (isoformat (now w));
         report_at report "case_details" "case_name";
         report_at report "case_details" "incident_date";
         report_at report "case_details" "location";
         dict_get device_info "device_model" (PStr "Inconnu");
         dict_get device_info "android_version" (PStr "Inconnu");
         dict_get device_info "manufacturer" (PStr "Inconnu");
         PStr "Logical Acquisition via ADB";
         PStr "Android Collector Platform";
         PStr (strftime_acquisition (now w));
         PInt 0;
         report_at report "findings_summary" "contacts_found";
         report_at report "findings_summary" "call_logs_found";
         report_at report "findings_summary" "sms_messages_found";
         report_at report "findings_summary" "whatsapp_data_found";
         report_at report "findings_summary" "google_maps_data_found";
         dict_get extraction_data "integrity_ok" (PBool true);
         dict_get extraction_data "total_files" (PInt 0);
         dict_get extraction_data "hashes_calculated" (PBool true);
         dict_get extraction_data "main_findings"
           (PStr "Aucune donnée compromettante détectée");
         PList
           [PStr "Conserver les fichiers de hash pour vérification future";
            PStr "Archiver les preuves dans un support sécurisé";
            PStr "Documenter toute manipulation ultérieure"];
         PStr ("Ce rapport a été généré automatiquement. Pour une analyse "
               ++ "complète, consulter un expert en forensic numérique.");
         PInt (year (now w))]).
Proof.
  intros Hdev Hdir Hwr.
  unfold generate_forensic_report.
  cbv beta iota zeta delta [bind lift ret datetime_now extract_timeline_data].
  rewrite Hdev. cbv beta iota delta [py_get].
  match goal with
  | |- context [save_report_files (PDict ?r) _ _] => set (report := r)
  end.
  edestruct (save_report_files_ok (PDict report) (strftime_compact (now w)) w)
    as [paths Hsave]; [exact Hdir | exact Hwr | reflexivity |].
  rewrite Hsave.
  exists report. eexists. split; [reflexivity |].
  split; [reflexivity |].
  split.
  { destruct scenario_data as [[| kv rest] |]; repeat split. }
  split.
  { intros d -> Hhas.
    change (report_at report "case_details" "case_name")
      with (scenario_field (Some d) "case_name"
              (PStr "Investigation Android") (PStr "Investigation Standard")).
    unfold scenario_field. destruct d as [| kv d]; [discriminate |].
    cbn [py_truth]. apply dict_get_default. exact Hhas. }
  split.
  { intros k src missing Hin. cbn in Hin.
    repeat (destruct Hin as [Hin | Hin]; [injection Hin as <- <- <-; reflexivity |]).
    contradiction. }
  split.
  { intros section k src missing Hin. cbn in Hin.
    repeat (destruct Hin as [Hin | Hin];
            [injection Hin as <- <- <- <-; reflexivity |]).
    contradiction. }
  split.
  { intros k src Hin.
    assert (Hflag : report_at report "findings_summary" k
                    = oui_non (dict_get extraction_data src (PBool false))).
    { cbn in Hin.
      repeat (destruct Hin as [Hin | Hin]; [injection Hin as <- <-; reflexivity |]).
      contradiction. }
    rewrite Hflag. unfold oui_non.
    split; [reflexivity |]. split; [| split].
    - intros ->. reflexivity.
    - intros ->. reflexivity.
    - intros Habsent. now rewrite dict_get_absent. }
  cbn [reports set_reports]. split.
  - rewrite lookup_insert_ne by (apply not_eq_sym, report_paths_differ).
    apply lookup_insert_eq.
  - rewrite lookup_insert_eq. reflexivity.
Qed.

Lemma generate_report_structure_witness :
  exists report w1 page,
    generate_forensic_report latest_extraction_data (Some affaire_x) (bare_world ∅)
    = (Ret report, w1) /\
    report_at report "case_details" "case_name" = PStr "Affaire X" /\
    report_at report "case_details" "location" = PStr "N/A" /\
    report_at report "device_information" "device_model" = PStr "Infinix Smart 5" /\
    report_at report "findings_summary" "contacts_found" = PStr "Oui" /\
    reports w1 !! report_path "FR-20240517-090307" ".json"
    = Some (ReportJson (PDict report)) /\
    reports w1 !! report_path "FR-20240517-090307" ".html"
    = Some (ReportHtml page) /\
    nth 3 page PNone = PStr "Affaire X".
Proof.
  destruct (generate_report_structure latest_extraction_data (Some affaire_x)
              (bare_world ∅)
              [("device_model", PStr "Infinix Smart 5");
               ("android_version", PStr "Android 11");
               ("manufacturer", PStr "Infinix")]
              eq_refl eq_refl eq_refl)
    as (report & w1 & Hgen & _ & Hcase & Hname & Hdev & _ & Hflags
        & Hjson & Hhtml).
  destruct Hcase as (_ & Hcase_name & _ & Hlocation & _).
  exists report, w1. eexists. split; [exact Hgen |].
  split; [exact Hcase_name |].
  split; [exact Hlocation |].
  split; [apply (Hdev "device_model" "device_model" (PStr "Inconnu"));
          cbn; tauto |].
  split.
  { apply (Hflags "contacts_found" "has_contacts"); [cbn; tauto | reflexivity]. }
  split; [exact Hjson |]. split; [exact Hhtml |].
  cbn [nth]. exact Hcase_name.
Defined.

(** The report depends on the inputs and on the clock, not on the rest of
    the state. *)
Lemma generate_report_deterministic
    (extraction_data : pydict) (scenario_data : option pydict) (w w' : world) :
  now w = now w' ->
  reports_dir_ok w = true -> reports_writable w = true ->
  reports_dir_ok w' = true -> reports_writable w' = true ->
  fst (generate_forensic_report extraction_data scenario_data w)
  = fst (generate_forensic_report extraction_data scenario_data w').
Proof.
  intros Hnow Hd Hw Hd' Hw'.
  unfold generate_forensic_report.
  cbv beta iota zeta delta [bind lift ret datetime_now extract_timeline_data].
  rewrite <- Hnow.
  destruct (dict_get extraction_data "device_info" (PDict []))
    as [| | | | | device_info]; try reflexivity.
  cbv beta iota delta [py_get].
  match goal with
  | |- context [save_report_files (PDict ?r) _ _] => set (report := r)
  end.
  edestruct (save_report_files_ok (PDict report) (strftime_compact (now w)) w)
    as [paths Hsave]; [exact Hd | exact Hw | reflexivity |].
  edestruct (save_report_files_ok (PDict report) (strftime_compact (now w)) w')
    as [paths' Hsave']; [exact Hd' | exact Hw' | |].
  { unfold generate_html_report, bind, datetime_now, lift.
    cbn [now set_reports]. rewrite <- Hnow. reflexivity. }
  rewrite Hsave, Hsave'. reflexivity.
Qed.

(** * Further properties of the evidence chain *)

(** ** What the verifier and the recorder leave alone *)

(** X1.  [verify_integrity] only reads: whatever the path, the ledger and
    the files, and whether it answers or raises, the state after the call
    is the state before it. *)
Theorem verify_integrity_reads_only (p : string) (w : world) :
  snd (verify_integrity p w) = w /\ snd (verify_file_integrity p w) = w.
Proof.
  assert (H : forall q, snd (verify_integrity q w) = w).
  { intros q. rewrite verify_integrity_eq.
    destruct (files w !! q); [| reflexivity].
    destruct (json_log w) as [| | data]; try reflexivity.
    destruct (lookup_entry data (basename q)) as [entry | e]; [| reflexivity].
    destruct (negb (py_truth entry)); [reflexivity |].
    destruct (py_get entry "sha256" PNone); reflexivity. }
  split; [apply H | apply (H (os_path_join _ p))].
Qed.

(** X2.  [create_evidence_chain] writes to the two ledger files and to
    nothing else: the artefact files (the recorded file among them), the
    stored reports, the clock and the permissions are as before, whether
    the call returns a PASS or a FAIL record. *)
Theorem record_touches_only_the_ledger (p op : string) (w : world) :
  let w1 := snd (create_evidence_chain p op w) in
  files w1 = files w /\ reports w1 = reports w /\ now w1 = now w /\
  evidence_dir_ok w1 = evidence_dir_ok w /\
  csv_writable w1 = csv_writable w /\ json_writable w1 = json_writable w /\
  reports_dir_ok w1 = reports_dir_ok w /\
  reports_writable w1 = reports_writable w.
Proof.
  rewrite create_evidence_chain_eq.
  destruct (files w !! p); [| cbn; tauto].
  cbv zeta.
  destruct (evidence_dir_ok w) eqn:Hd; cbn [negb]; [| cbn; tauto].
  destruct (csv_writable w) eqn:Hc; cbn [negb]; [| cbn; tauto].
  destruct (json_writable w) eqn:Hj; cbn; tauto.
Qed.

(** ** Verifying against a record *)

(** The verification of [p2] in a state whose ledger was written by a
    first record under the base name of [p2]. *)
Lemma verify_against_record
    (w w1 w2 : world) (p1 p2 op : string) (r : pydict) :
  create_evidence_chain p1 op w = (Ret r, w1) ->
  passed r = true ->
  forallb (other_record (basename p1)) (default [] (read_all w)) = true ->
  json_log w2 = json_log w1 ->
  basename p2 = basename p1 ->
  is_Some (files w2 !! p2) ->
  verify_integrity p2 w2 =
  (Ret (verdict (PStr (hash_text w p1 Hashlib.SHA256))
                (hash_text w2 p2 Hashlib.SHA256)), w2).
Proof.
  intros Hrec Hpass Hnew Hlog Hname [f2 Hf2].
  destruct (create_passed _ _ _ _ _ Hrec Hpass) as (f1 & Hf1 & Hr & Hw1).
  assert (Hlog1 : json_log w1 = Doc (appended_doc (json_log w) r))
    by (subst w1; reflexivity).
  rewrite verify_integrity_eq, Hf2, Hlog, Hlog1.
  rewrite (lookup_entry_chain _ _ _ (chain_of_appended _ _)), Hname.
  assert (Hn : named (basename p1) (PDict r) = true)
    by (subst r; cbn; apply String.eqb_refl).
  rewrite find_entry_first by assumption.
  rewrite (named_truth _ _ Hn). cbn [negb py_get].
  subst r. reflexivity.
Qed.

Lemma verdict_differs (h1 h2 : string) :
  h2 <> h1 ->
  verdict (PStr h1) h2 =
  [("status", PStr "warning");
   ("message", PStr "ALTÉRATION DÉTECTÉE ⚠️");
   ("original_hash", PStr h1);
   ("current_hash", PStr h2);
   ("match", PBool false)].
Proof.
  intros H. unfold verdict. cbn [py_eq_str].
  destruct (String.eqb h1 h2) eqn:E; [| reflexivity].
  apply String.eqb_eq in E. congruence.
Qed.

(** X3.  Tamper detection.  A file recorded for the first time under its
    name, then changed by the environment so that its SHA-256 text is
    another one, is reported as altered: status warning, match false, the
    recorded hash as [original_hash] and the new one as [current_hash]. *)
Theorem modified_file_detected
    (w w1 : world) (p op : string) (r : pydict)
    (fs : gmap string file) (t : datetime) (d c j : bool) :
  create_evidence_chain p op w = (Ret r, w1) ->
  passed r = true ->
  forallb (other_record (basename p)) (default [] (read_all w)) = true ->
  is_Some (fs !! p) ->
  hash_text (env_step fs t d c j w1) p Hashlib.SHA256
    <> hash_text w p Hashlib.SHA256 ->
  verify_integrity p (env_step fs t d c j w1) =
  (Ret [("status", PStr "warning");
        ("message", PStr "ALTÉRATION DÉTECTÉE ⚠️");
        ("original_hash", PStr (hash_text w p Hashlib.SHA256));
        ("current_hash",
         PStr (hash_text (env_step fs t d c j w1) p Hashlib.SHA256));
        ("match", PBool false)],
   env_step fs t d c j w1).
Proof.
  intros Hrec Hpass Hnew Hfile Hdiff.
  rewrite (verify_against_record w w1 (env_step fs t d c j w1) p p op r Hrec Hpass Hnew
             eq_refl eq_refl Hfile).
  now rewrite verdict_differs.
Qed.

Lemma modified_file_detected_witness :
  verify_integrity calls_txt w_reextracted =
  (Ret [("status", PStr "warning");
        ("message", PStr "ALTÉRATION DÉTECTÉE ⚠️");
        ("original_hash",
         PStr (hash_text (bare_world (one_file calls_v1)) calls_txt Hashlib.SHA256));
        ("current_hash", PStr (hash_text w_reextracted calls_txt Hashlib.SHA256));
        ("match", PBool false)],
   w_reextracted).
Proof.
  apply (modified_file_detected (bare_world (one_file calls_v1)) w_recorded
           calls_txt "calls_extraction"
           (evidence_entry (bare_world (one_file calls_v1)) calls_txt
              "calls_extraction" calls_v1)).
  - vm_compute. reflexivity.
  - reflexivity.
  - reflexivity.
  - exists calls_v2. vm_compute. reflexivity.
  - vm_compute. discriminate.
Defined.

Lemma file_digest_not_sentinel (alg : Hashlib.algorithm) (f : file) :
  file_digest alg f <> "ERROR".
Proof.
  intros H. apply (f_equal String.length) in H.
  unfold file_digest in H. rewrite hexlify_length, digest_length in H.
  destruct alg; cbn in H; lia.
Qed.

(** X4.  A file that was readable when it was recorded and can no longer
    be opened is reported as altered, with the text ERROR as its current
    hash: it is not reported as verified, and not as an error either. *)
Theorem unreadable_after_record_detected
    (w w1 : world) (p op : string) (r : pydict) (f f' : file)
    (fs : gmap string file) (t : datetime) (d c j : bool) :
  create_evidence_chain p op w = (Ret r, w1) ->
  passed r = true ->
  forallb (other_record (basename p)) (default [] (read_all w)) = true ->
  files w !! p = Some f -> f_readable f = true ->
  fs !! p = Some f' -> f_readable f' = false ->
  verify_integrity p (env_step fs t d c j w1) =
  (Ret [("status", PStr "warning");
        ("message", PStr "ALTÉRATION DÉTECTÉE ⚠️");
        ("original_hash", PStr (file_digest Hashlib.SHA256 f));
        ("current_hash", PStr "ERROR");
        ("match", PBool false)],
   env_step fs t d c j w1).
Proof.
  intros Hrec Hpass Hnew Hf Hread Hf' Hlocked.
  rewrite (verify_against_record w w1 (env_step fs t d c j w1) p p op r Hrec Hpass Hnew
             eq_refl eq_refl (ex_intro _ f' Hf')).
  unfold hash_text. cbn [files env_step]. rewrite Hf, Hread, Hf', Hlocked.
  apply f_equal2; [| reflexivity]. f_equal.
  apply verdict_differs. intros H. symmetry in H.
  exact (file_digest_not_sentinel _ _ H).
Qed.

Lemma unreadable_after_record_detected_witness :
  verify_integrity calls_txt
    (env_step (one_file locked) evening true true true w_recorded) =
  (Ret [("status", PStr "warning");
        ("message", PStr "ALTÉRATION DÉTECTÉE ⚠️");
        ("original_hash", PStr (file_digest Hashlib.SHA256 calls_v1));
        ("current_hash", PStr "ERROR");
        ("match", PBool false)],
   env_step (one_file locked) evening true true true w_recorded).
Proof.
  apply (unreadable_after_record_detected (bare_world (one_file calls_v1))
           w_recorded calls_txt "calls_extraction"
           (evidence_entry (bare_world (one_file calls_v1)) calls_txt
              "calls_extraction" calls_v1) calls_v1 locked).
  - vm_compute. reflexivity.
  - reflexivity.
  - reflexivity.
  - vm_compute. reflexivity.
  - reflexivity.
  - vm_compute. reflexivity.
  - reflexivity.
Defined.

(** ** The ledger document over a history *)

Lemma create_json_log (p op : string) (w : world) :
  exists r w1,
    create_evidence_chain p op w = (Ret r, w1) /\
    json_log w1
    = (if passed r then Doc (appended_doc (json_log w) r) else json_log w).
Proof.
  rewrite create_evidence_chain_eq.
  destruct (files w !! p) as [f |]; [| eauto].
  cbv zeta.
  destruct (evidence_dir_ok w); cbn [negb]; [| eauto].
  destruct (csv_writable w); cbn [negb]; [| eauto].
  destruct (json_writable w); do 2 eexists; (split; [reflexivity |]).
  - now rewrite passed_entry.
  - now rewrite passed_degraded.
Qed.

Lemma run_read_all (evs : list event) (w : world) (l : list pyval) :
  read_all w = Some l ->
  read_all (snd (run evs w))
  = Some (l ++ map PDict (List.filter passed (fst (run evs w))))%list.
Proof.
  revert w l. induction evs as [| ev rest IH]; intros w l Hl.
  - cbn. now rewrite app_nil_r.
  - destruct ev as [p op | fs t d c j].
    + destruct (create_step p op w) as (r & w1 & Hrun & Hread & _).
      cbn [run]. rewrite Hrun.
      specialize (IH w1 _ (Hread l Hl)).
      destruct (run rest w1) as [rs w2]. cbn [fst snd] in *.
      rewrite IH, <- app_assoc. cbn [List.filter].
      destruct (passed r); reflexivity.
    + cbn [run]. apply (IH (env_step fs t d c j w) l). exact Hl.
Qed.

Lemma run_json_log_untouched (evs : list event) (w : world) :
  List.filter passed (fst (run evs w)) = [] ->
  json_log (snd (run evs w)) = json_log w.
Proof.
  revert w. induction evs as [| ev rest IH]; intros w; [reflexivity |].
  destruct ev as [p op | fs t d c j].
  - destruct (create_json_log p op w) as (r & w1 & Hrun & Hlog).
    cbn [run]. rewrite Hrun. specialize (IH w1).
    destruct (run rest w1) as [rs w2]. cbn [fst snd List.filter] in *.
    destruct (passed r); [discriminate |].
    intros H. now rewrite IH, Hlog.
  - cbn [run]. intros H. now rewrite IH.
Qed.

Lemma run_all_dicts (evs : list event) (w : world) :
  Forall (fun r => passed r = true) (List.filter passed (fst (run evs w))).
Proof.
  apply List.Forall_forall. intros r Hin. now apply filter_In in Hin.
Qed.

(** X5.  The reference of a name is fixed by its first record, as long
    as the ledger document is written by the chain alone.  After a first
    PASS record under a name, and over any history of record calls (other
    files recorded, the same name recorded again) with the artefact files,
    the clock and the write permissions of the ledger directory, of the CSV
    log and of the JSON document changing in between, verifying an existing
    file of that base name, in whatever directory, compares it with the
    digest of that first record.  The histories considered leave the
    document readable and do not rewrite it from outside: a document made
    unreadable or malformed is another matter (the verifier then raises,
    and the next PASS record replaces the document). *)
Theorem reference_survives_history
    (w w1 : world) (p p2 op : string) (r : pydict) (evs : list event) :
  create_evidence_chain p op w = (Ret r, w1) ->
  passed r = true ->
  forallb (other_record (basename p)) (default [] (read_all w)) = true ->
  basename p2 = basename p ->
  is_Some (files (snd (run evs w1)) !! p2) ->
  verify_integrity p2 (snd (run evs w1)) =
  (Ret (verdict (PStr (hash_text w p Hashlib.SHA256))
                (hash_text (snd (run evs w1)) p2 Hashlib.SHA256)),
   snd (run evs w1)).
Proof.
  intros Hrec Hpass Hnew Hname [f2 Hf2].
  destruct (create_passed _ _ _ _ _ Hrec Hpass) as (f1 & Hf1 & Hr & Hw1).
  assert (Hread1 : read_all w1
                   = Some (default [] (read_all w) ++ [PDict r])%list).
  { subst w1. unfold read_all. cbn [json_log set_json_log records].
    apply chain_of_appended. }
  pose proof (run_read_all evs w1 _ Hread1) as Hread2.
  rewrite <- app_assoc in Hread2. cbn [app] in Hread2.
  assert (Hdoc : exists data, json_log (snd (run evs w1)) = Doc data /\
            chain_of data
            = Some (default [] (read_all w) ++ PDict r ::
                    map PDict (List.filter passed (fst (run evs w1))))%list).
  { revert Hread2. unfold read_all at 1, records.
    destruct (json_log (snd (run evs w1))) as [| | data]; eauto.
    - destruct (default [] (read_all w)); discriminate.
    - discriminate. }
  destruct Hdoc as (data & Hlog & Hchain).
  rewrite verify_integrity_eq, Hf2, Hlog.
  rewrite (lookup_entry_chain _ _ _ Hchain), Hname.
  assert (Hn : named (basename p) (PDict r) = true)
    by (subst r; cbn; apply String.eqb_refl).
  rewrite find_entry_first by assumption.
  rewrite (named_truth _ _ Hn). cbn [negb py_get].
  subst r. reflexivity.
Qed.

Lemma reference_survives_history_witness :
  verify_integrity backup_calls_txt
    (snd (run backup_history w_recorded)) =
  (Ret (verdict
          (PStr (hash_text (bare_world (one_file calls_v1)) calls_txt
                   Hashlib.SHA256))
          (hash_text
             (snd (run backup_history w_recorded))
             backup_calls_txt Hashlib.SHA256)),
   snd (run backup_history w_recorded)).
Proof.
  apply (reference_survives_history (bare_world (one_file calls_v1)) w_recorded
           calls_txt backup_calls_txt "calls_extraction"
           (evidence_entry (bare_world (one_file calls_v1)) calls_txt
              "calls_extraction" calls_v1)).
  - vm_compute. reflexivity.
  - reflexivity.
  - reflexivity.
  - reflexivity.
  - exists calls_v2. vm_compute. reflexivity.
Defined.


(** ** The two ledger files *)

(** X6.  The two ledger files can part.  When the CSV log can be written
    and the JSON document cannot, the call returns the FAIL record and leaves
    the document as it was, yet the CSV log has gained the row of the record
    it had assembled, whose [integrity_check] column reads PASS. *)
Theorem json_failure_leaves_csv_row (p op : string) (w : world) (f : file) :
  files w !! p = Some f ->
  evidence_dir_ok w = true ->
  csv_writable w = true ->
  json_writable w = false ->
  exists r w1,
    create_evidence_chain p op w = (Ret r, w1) /\
    dict_get r "integrity_check" PNone = PStr "FAIL" /\
    json_log w1 = json_log w /\
    csv_lines w1
    = (csv_lines w ++ csv_header (csv_log w) [r]
         ++ [csv_row (evidence_entry w p op f)])%list /\
    In ("integrity_check", PStr "PASS")
       (combine fieldnames (csv_row (evidence_entry w p op f))).
Proof.
  intros Hf Hd Hc Hj.
  rewrite create_evidence_chain_eq, Hf. cbv zeta.
  rewrite Hd, Hc, Hj. cbn [negb].
  do 2 eexists. split; [reflexivity |].
  split; [reflexivity |]. split; [reflexivity |]. split.
  - unfold csv_lines, csv_appended. cbn [csv_log set_csv_log from_option id].
    destruct (csv_log w); reflexivity.
  - do 11 right. left. reflexivity.
Qed.

Lemma json_failure_leaves_csv_row_witness :
  exists r w1,
    create_evidence_chain calls_txt "calls_extraction" w_read_only = (Ret r, w1) /\
    dict_get r "integrity_check" PNone = PStr "FAIL" /\
    json_log w1 = json_log w_read_only /\
    csv_lines w1
    = (csv_lines w_read_only ++ csv_header (csv_log w_read_only) [r]
         ++ [csv_row (evidence_entry w_read_only calls_txt "calls_extraction"
                        calls_v1)])%list /\
    In ("integrity_check", PStr "PASS")
       (combine fieldnames
          (csv_row (evidence_entry w_read_only calls_txt "calls_extraction"
                      calls_v1))).
Proof.
  apply (json_failure_leaves_csv_row calls_txt "calls_extraction" w_read_only
           calls_v1).
  - vm_compute. reflexivity.
  - reflexivity.
  - reflexivity.
  - reflexivity.
Defined.

(** X7.  A document the chain cannot read as its own is replaced.  When
    [evidence_log.json] does not parse, or parses to something else than an
    object holding a list under [evidence_chain], a record call that goes
    through leaves a document holding that record alone: what the old
    document held is gone from it, while the CSV log keeps its lines. *)
Theorem unreadable_document_reset
    (w w1 : world) (p op : string) (r : pydict) :
  read_all w = None ->
  create_evidence_chain p op w = (Ret r, w1) ->
  passed r = true ->
  read_all w1 = Some [PDict r] /\
  exists rows, csv_lines w1 = (csv_lines w ++ rows)%list.
Proof.
  intros Hnone Hrec Hpass.
  destruct (create_passed _ _ _ _ _ Hrec Hpass) as (f & Hf & Hr & Hw1).
  split.
  - rewrite Hw1. unfold read_all in *. cbn [json_log set_json_log records].
    rewrite chain_of_appended, Hnone. reflexivity.
  - rewrite Hw1. unfold csv_lines, csv_appended.
    cbn [csv_log set_json_log set_csv_log from_option id].
    destruct (csv_log w); eauto.
Qed.

Lemma unreadable_document_reset_witness :
  read_all (snd (create_evidence_chain calls_txt "calls_extraction" w_array_document))
  = Some [PDict (evidence_entry w_array_document calls_txt "calls_extraction"
                   calls_v2)] /\
  exists rows,
    csv_lines (snd (create_evidence_chain calls_txt "calls_extraction"
                      w_array_document))
    = (csv_lines w_array_document ++ rows)%list.
Proof.
  apply (unreadable_document_reset w_array_document _ calls_txt "calls_extraction").
  - reflexivity.
  - vm_compute. reflexivity.
  - reflexivity.
Defined.

(** X8.  What a PASS record says of a file that could be opened: its size
    is the number of bytes digested, and its three digest fields are the
    MD5, SHA-1 and SHA-256 of those bytes, 32, 40 and 64 lowercase
    hexadecimal digits. *)
Theorem record_describes_file
    (w w1 : world) (p op : string) (r : pydict) (f : file) :
  create_evidence_chain p op w = (Ret r, w1) ->
  passed r = true ->
  files w !! p = Some f ->
  f_readable f = true ->
  dict_get r "file_size" PNone = PInt (Z.of_nat (List.length (f_bytes f))) /\
  dict_get r "filename" PNone = PStr (basename p) /\
  forall alg field,
    In (alg, field)
       [(Hashlib.MD5, "md5"); (Hashlib.SHA1, "sha1"); (Hashlib.SHA256, "sha256")] ->
    dict_get r field PNone = PStr (file_digest alg f) /\
    lower_hex alg (file_digest alg f).
Proof.
  intros Hrec Hpass Hf Hread.
  destruct (create_passed _ _ _ _ _ Hrec Hpass) as (f' & Hf' & -> & _).
  rewrite Hf in Hf'. inversion Hf'; subst f'.
  split; [reflexivity |]. split; [reflexivity |].
  intros alg field Hin. split.
  - cbn in Hin.
    repeat (destruct Hin as [Hin | Hin];
            [injection Hin as <- <-; cbn; unfold hash_text;
             now rewrite Hf, Hread |]).
    contradiction.
  - unfold lower_hex, file_digest. split.
    + now rewrite hexlify_length, digest_length.
    + apply hexlify_lower.
Qed.

Lemma record_describes_file_witness :
  dict_get (evidence_entry (bare_world (one_file calls_v1)) calls_txt
              "calls_extraction" calls_v1) "file_size" PNone
  = PInt (Z.of_nat (List.length (f_bytes calls_v1))) /\
  dict_get (evidence_entry (bare_world (one_file calls_v1)) calls_txt
              "calls_extraction" calls_v1) "filename" PNone
  = PStr (basename calls_txt) /\
  forall alg field,
    In (alg, field)
       [(Hashlib.MD5, "md5"); (Hashlib.SHA1, "sha1"); (Hashlib.SHA256, "sha256")] ->
    dict_get (evidence_entry (bare_world (one_file calls_v1)) calls_txt
                "calls_extraction" calls_v1) field PNone
    = PStr (file_digest alg calls_v1) /\
    lower_hex alg (file_digest alg calls_v1).
Proof.
  apply (record_describes_file (bare_world (one_file calls_v1)) w_recorded
           calls_txt "calls_extraction").
  - vm_compute. reflexivity.
  - reflexivity.
  - vm_compute. reflexivity.
  - reflexivity.
Defined.

(** ** The page of the evidence chain *)

Lemma dict_get_present (d : pydict) (k : string) (a b v : pyval) :
  dict_get d k a = v -> v <> a -> dict_get d k b = v.
Proof.
  induction d as [| [k' v'] d IH]; cbn.
  - congruence.
  - destruct (String.eqb k' k); auto.
Qed.

Lemma count_failed_passed (rs : list pydict) :
  Forall (fun r => passed r = true) rs ->
  count_failed (map PDict rs) = Ret 0.
Proof.
  induction 1 as [| r rs Hr _ IH]; [reflexivity |].
  cbn [map count_failed py_get obind]. rewrite IH. cbn [obind].
  unfold passed in Hr. apply py_eq_str_eq in Hr. now rewrite Hr.
Qed.

(** The page for a document holding the records [rs] and [r], all PASS. *)
Lemma view_of_chain (w : world) (data : pyval) (rs : list pydict) (r : pydict) :
  json_log w = Doc data ->
  chain_of data = Some (map PDict (rs ++ [r])) ->
  Forall (fun r => passed r = true) (rs ++ [r]) ->
  view_evidence_chain w =
  Answer (chain_page (map PDict (rs ++ [r]))
            [("total_entries", PInt (Z.of_nat (List.length (rs ++ [r]))));
             ("last_update", dict_get r "timestamp" (PStr "N/A"));
             ("files_with_errors", PInt 0)]).
Proof.
  intros Hlog Hchain Hpass.
  unfold view_evidence_chain, json_exists, json_load. rewrite Hlog.
  cbn [fst of_outcome abind].
  unfold chain_of in Hchain. destruct data as [| | | | | d]; try discriminate.
  destruct (dict_get d "evidence_chain" (PList [])) as [| | | | l |] eqn:Hget;
    try discriminate.
  injection Hchain as ->.
  cbn [py_get of_outcome abind]. rewrite Hget.
  rewrite (dict_get_present d "evidence_chain" (PList []) (PList [PDict []]) _ Hget).
  2: { destruct rs; discriminate. }
  cbn [py_len abind py_last].
  rewrite <- map_rev, rev_app_distr. cbn [rev app map abind py_get of_outcome].
  cbn [py_iter obind]. rewrite count_failed_passed by exact Hpass.
  cbn [of_outcome abind]. now rewrite length_map.
Qed.

(** X9.  The page of the chain after a history that started without a
    ledger document.  It lists the records of the calls that returned PASS,
    in call order; [total_entries] is their number, [last_update] the
    timestamp of the last of them, and [files_with_errors] is 0 however
    many calls failed, a FAIL record never being stored.  Before the first
    PASS there is no document and the page shows the empty chain. *)
Theorem view_after_history (evs : list event) (w : world) :
  json_log w = DocAbsent ->
  view_evidence_chain (snd (run evs w)) =
  Answer
    (let rs := List.filter passed (fst (run evs w)) in
     chain_page (map PDict rs)
       match rev rs with
       | [] => [("total_entries", PInt 0)]
       | r :: _ =>
           [("total_entries", PInt (Z.of_nat (List.length rs)));
            ("last_update", dict_get r "timestamp" (PStr "N/A"));
            ("files_with_errors", PInt 0)]
       end).
Proof.
  intros Habsent. cbv zeta.
  pose proof (run_all_dicts evs w) as Hpass.
  assert (Hread : read_all w = Some []) by (unfold read_all; now rewrite Habsent).
  pose proof (run_read_all evs w [] Hread) as Hall. cbn [app] in Hall.
  remember (List.filter passed (fst (run evs w))) as rs eqn:Hrs.
  destruct (rev rs) as [| r0 l] eqn:Hrev.
  - apply (f_equal (@rev _)) in Hrev. rewrite rev_involutive in Hrev.
    cbn in Hrev. subst rs.
    pose proof (run_json_log_untouched evs w Hrev) as Hlog.
    rewrite ?Hrev.
    unfold view_evidence_chain, json_exists. rewrite Hlog, Habsent.
    reflexivity.
  - apply (f_equal (@rev _)) in Hrev. rewrite rev_involutive in Hrev.
    cbn [rev] in Hrev. rewrite Hrev in *.
    unfold read_all, records in Hall.
    destruct (json_log (snd (run evs w))) as [| | data] eqn:Hlog.
    + destruct (rev l); discriminate.
    + discriminate.
    + apply (view_of_chain _ data (rev l) r0 Hlog Hall Hpass).
Qed.

Lemma view_after_history_witness :
  view_evidence_chain (snd (run three_calls (bare_world (one_file calls_v1)))) =
  Answer
    (let rs := List.filter passed
                 (fst (run three_calls (bare_world (one_file calls_v1)))) in
     chain_page (map PDict rs)
       match rev rs with
       | [] => [("total_entries", PInt 0)]
       | r :: _ =>
           [("total_entries", PInt (Z.of_nat (List.length rs)));
            ("last_update", dict_get r "timestamp" (PStr "N/A"));
            ("files_with_errors", PInt 0)]
       end).
Proof.
  apply (view_after_history three_calls (bare_world (one_file calls_v1))).
  reflexivity.
Defined.

(** X10.  The page has no handler of its own.  On a document whose
    [evidence_chain] is there and is the empty list, the default of the
    second lookup is not used, the last element of the empty list is asked
    for, and the view raises [IndexError]. *)
Theorem view_crashes_on_emptied_chain (w : world) (d : pydict) :
  json_log w = Doc (PDict d) ->
  dict_has d "evidence_chain" = true ->
  dict_get d "evidence_chain" PNone = PList [] ->
  view_evidence_chain w = Crash IndexError.
Proof.
  intros Hlog Hhas Hget.
  unfold view_evidence_chain, json_exists, json_load. rewrite Hlog.
  cbn [fst of_outcome abind py_get].
  rewrite (dict_get_default d "evidence_chain" (PList []) PNone) by exact Hhas.
  rewrite (dict_get_default d "evidence_chain" (PList [PDict []]) PNone)
    by exact Hhas.
  rewrite Hget. reflexivity.
Qed.

Lemma view_crashes_on_emptied_chain_witness :
  view_evidence_chain w_emptied_document = Crash IndexError.
Proof.
  apply (view_crashes_on_emptied_chain w_emptied_document
           [("evidence_chain", PList [])]); reflexivity.
Defined.

(** * Further properties of the reports *)

Lemma generate_html_report_clock (report : pyval) (w w' : world) :
  now w' = now w ->
  generate_html_report report w'
  = (fst (generate_html_report report w), w').
Proof.
  intros Hnow. unfold generate_html_report, bind, datetime_now, lift.
  cbn [fst]. now rewrite Hnow.
Qed.

(** What a run of [generate_forensic_report] gives when the device
    information is a dictionary and the reports can be written. *)
Lemma generate_forensic_report_run
    (extraction_data : pydict) (scenario_data : option pydict) (w : world)
    (device_info : pydict) :
  dict_get extraction_data "device_info" (PDict []) = PDict device_info ->
  reports_dir_ok w = true ->
  reports_writable w = true ->
  exists report page,
    generate_forensic_report extraction_data scenario_data w
    = (Ret report, stored ("FR-" ++ strftime_compact (now w)) report page w) /\
    fst (generate_html_report (PDict report) w) = Ret page /\
    nth 12 page PNone = PInt 0 /\
    dict_has report "report_id" = true /\
    dict_get report "report_id" PNone = PStr ("FR-" ++ strftime_compact (now w)) /\
    dict_get report "case_reference" PNone
    = scenario_field scenario_data "case_number"
        (PStr "CS-2024-001") (PStr "CS-NON-RENSEIGNE") /\
    (forall k src missing unset, In (k, src, missing, unset) case_fields ->
       report_at report "case_details" k
       = scenario_field scenario_data src missing unset) /\
    (forall k src missing, In (k, src, missing) device_fields ->
       report_at report "device_information" k = dict_get device_info src missing) /\
    (forall k, In k artefact_kinds ->
       report_at report "artefacts_extracted" k = PInt 0).
Proof.
  intros Hdev Hdir Hwr.
  unfold generate_forensic_report.
  cbv beta iota zeta delta [bind lift ret datetime_now extract_timeline_data].
  rewrite Hdev. cbv beta iota delta [py_get].
  match goal with
  | |- context [save_report_files (PDict ?r) _ _] => set (report := r)
  end.
  edestruct (save_report_files_ok (PDict report) (strftime_compact (now w)) w)
    as [paths Hsave]; [exact Hdir | exact Hwr | reflexivity |].
  rewrite Hsave.
  exists report. eexists. split; [reflexivity |].
  split; [reflexivity |]. split; [reflexivity |].
  split; [reflexivity |]. split; [reflexivity |]. split; [reflexivity |].
  split.
  { intros k src missing unset Hin. cbn in Hin.
    repeat (destruct Hin as [Hin | Hin]; [injection Hin as <- <- <- <-; reflexivity |]).
    contradiction. }
  split.
  { intros k src missing Hin. cbn in Hin.
    repeat (destruct Hin as [Hin | Hin]; [injection Hin as <- <- <-; reflexivity |]).
    contradiction. }
  intros k Hin. cbn in Hin.
  repeat (destruct Hin as [<- | Hin]; [reflexivity |]).
  contradiction.
Qed.

Lemma report_path_ext (report_id e1 e2 : string) :
  e1 <> e2 -> report_path report_id e1 <> report_path report_id e2.
Proof.
  unfold report_path. intros Hne H.
  apply string_app_inj in H. apply string_app_inj in H. contradiction.
Qed.

(** X11.  A report can be downloaded as soon as it is generated: after
    [generate_forensic_report] returned a report, [download_report] on the
    report's identifier sends back the stored page, the one
    [generate_html_report] gives for that report, as [text/html] and as an
    attachment named after the identifier. *)
Theorem generated_report_downloads
    (extraction_data : pydict) (scenario_data : option pydict) (w : world)
    (device_info : pydict) :
  dict_get extraction_data "device_info" (PDict []) = PDict device_info ->
  reports_dir_ok w = true ->
  reports_writable w = true ->
  exists report w1 page,
    generate_forensic_report extraction_data scenario_data w = (Ret report, w1) /\
    dict_get report "report_id" PNone = PStr ("FR-" ++ strftime_compact (now w)) /\
    fst (generate_html_report (PDict report) w1) = Ret page /\
    download_report ("FR-" ++ strftime_compact (now w)) w1
    = HttpResponse (ReportHtml page) "text/html"
        [("Content-Disposition",
          "attachment; filename=" ++ dquote ++ "FR-" ++ strftime_compact (now w)
          ++ ".html" ++ dquote)].
Proof.
  intros Hdev Hdir Hwr.
  destruct (generate_forensic_report_run extraction_data scenario_data w
              device_info Hdev Hdir Hwr)
    as (report & page & Hgen & Hpage & _ & _ & Hid & _).
  exists report, (stored ("FR-" ++ strftime_compact (now w)) report page w), page.
  split; [exact Hgen |]. split; [exact Hid |]. split.
  - rewrite (generate_html_report_clock _ w) by reflexivity. exact Hpage.
  - unfold download_report, stored. cbn [reports set_reports].
    change ("collector/static/collected_data/forensic_reports/"
            ++ ("FR-" ++ strftime_compact (now w)) ++ ".html")
      with (report_path ("FR-" ++ strftime_compact (now w)) ".html").
    rewrite lookup_insert_eq. reflexivity.
Qed.

Lemma generated_report_downloads_witness :
  exists report w1 page,
    generate_forensic_report latest_extraction_data (Some affaire_x) (bare_world ∅)
    = (Ret report, w1) /\
    dict_get report "report_id" PNone
    = PStr ("FR-" ++ strftime_compact (now (bare_world ∅))) /\
    fst (generate_html_report (PDict report) w1) = Ret page /\
    download_report ("FR-" ++ strftime_compact (now (bare_world ∅))) w1
    = HttpResponse (ReportHtml page) "text/html"
        [("Content-Disposition",
          "attachment; filename=" ++ dquote ++ "FR-"
          ++ strftime_compact (now (bare_world ∅)) ++ ".html" ++ dquote)].
Proof.
  apply (generated_report_downloads latest_extraction_data (Some affaire_x)
           (bare_world ∅)
           [("device_model", PStr "Infinix Smart 5");
            ("android_version", PStr "Android 11");
            ("manufacturer", PStr "Infinix")]); reflexivity.
Defined.

(** X12.  Report identifiers are good for one second.  Two reports
    generated at clock readings that agree down to the second get the same
    identifier, and the second report takes the place of the first: after
    both runs the files under that identifier hold the second report and
    its page, and the store is what the second run alone would have
    left. *)
Theorem same_second_reports_collide
    (e1 e2 : pydict) (s1 s2 : option pydict) (w : world) (t2 : datetime)
    (d1 d2 : pydict) :
  dict_get e1 "device_info" (PDict []) = PDict d1 ->
  dict_get e2 "device_info" (PDict []) = PDict d2 ->
  reports_dir_ok w = true ->
  reports_writable w = true ->
  strftime_compact t2 = strftime_compact (now w) ->
  exists r1 w1 r2 w2 page2,
    generate_forensic_report e1 s1 w = (Ret r1, w1) /\
    generate_forensic_report e2 s2 (set_now t2 w1) = (Ret r2, w2) /\
    dict_get r1 "report_id" PNone = dict_get r2 "report_id" PNone /\
    reports w2 !! report_path ("FR-" ++ strftime_compact (now w)) ".json"
    = Some (ReportJson (PDict r2)) /\
    reports w2 !! report_path ("FR-" ++ strftime_compact (now w)) ".html"
    = Some (ReportHtml page2) /\
    reports w2
    = reports (snd (generate_forensic_report e2 s2 (set_now t2 w))).
Proof.
  intros Hd1 Hd2 Hdir Hwr Hsame.
  destruct (generate_forensic_report_run e1 s1 w d1 Hd1 Hdir Hwr)
    as (r1 & page1 & Hgen1 & _ & _ & _ & Hid1 & _).
  destruct (generate_forensic_report_run e2 s2
              (set_now t2 (stored ("FR-" ++ strftime_compact (now w)) r1 page1 w))
              d2 Hd2 Hdir Hwr)
    as (r2 & page2 & Hgen2 & Hpage2 & _ & _ & Hid2 & _).
  destruct (generate_forensic_report_run e2 s2 (set_now t2 w) d2 Hd2 Hdir Hwr)
    as (r2' & page2' & Hgen2' & Hpage2' & _).
  assert (Hfst : fst (generate_forensic_report e2 s2 (set_now t2 w))
                 = fst (generate_forensic_report e2 s2
                          (set_now t2 (stored ("FR-" ++ strftime_compact (now w))
                                         r1 page1 w))))
    by (apply generate_report_deterministic; auto).
  rewrite Hgen2, Hgen2' in Hfst. cbn [fst] in Hfst. injection Hfst as ->.
  assert (Hpages : page2' = page2).
  { rewrite (generate_html_report_clock _ (set_now t2 w)) in Hpage2
      by reflexivity.
    cbn [fst] in Hpage2. congruence. }
  subst page2'.
  cbn [now set_now] in Hgen2, Hgen2', Hid2. rewrite Hsame in Hgen2, Hgen2', Hid2.
  exists r1, (stored ("FR-" ++ strftime_compact (now w)) r1 page1 w), r2.
  do 2 eexists. split; [exact Hgen1 |]. split; [exact Hgen2 |].
  split; [congruence |].
  rewrite Hgen2'. unfold stored. cbn [reports set_reports set_now snd].
  split; [| split].
  - rewrite lookup_insert_ne by (apply report_path_ext; discriminate).
    apply lookup_insert_eq.
  - apply lookup_insert_eq.
  - apply map_eq. intros k.
    destruct (decide (k = report_path ("FR-" ++ strftime_compact (now w)) ".html"))
      as [-> | Hh].
    { now rewrite !lookup_insert_eq. }
    rewrite !(lookup_insert_ne _ (report_path _ ".html")) by congruence.
    destruct (decide (k = report_path ("FR-" ++ strftime_compact (now w)) ".json"))
      as [-> | Hj].
    { now rewrite !lookup_insert_eq. }
    repeat (rewrite lookup_insert_ne by congruence).
    reflexivity.
Qed.

Lemma same_second_reports_collide_witness :
  exists r1 w1 r2 w2 page2,
    generate_forensic_report latest_extraction_data (Some affaire_x) (bare_world ∅)
    = (Ret r1, w1) /\
    generate_forensic_report latest_extraction_data (Some affaire_y)
      (set_now same_second w1) = (Ret r2, w2) /\
    dict_get r1 "report_id" PNone = dict_get r2 "report_id" PNone /\
    reports w2
      !! report_path ("FR-" ++ strftime_compact (now (bare_world ∅))) ".json"
    = Some (ReportJson (PDict r2)) /\
    reports w2
      !! report_path ("FR-" ++ strftime_compact (now (bare_world ∅))) ".html"
    = Some (ReportHtml page2) /\
    reports w2
    = reports (snd (generate_forensic_report latest_extraction_data
                      (Some affaire_y) (set_now same_second (bare_world ∅)))).
Proof.
  apply (same_second_reports_collide latest_extraction_data latest_extraction_data
           (Some affaire_x) (Some affaire_y) (bare_world ∅) same_second
           [("device_model", PStr "Infinix Smart 5");
            ("android_version", PStr "Android 11");
            ("manufacturer", PStr "Infinix")]
           [("device_model", PStr "Infinix Smart 5");
            ("android_version", PStr "Android 11");
            ("manufacturer", PStr "Infinix")]); reflexivity.
Defined.

(** X13.  A report that cannot be made leaves nothing behind.  When the
    device information of the extraction data is not a dictionary, or the
    reports directory cannot be made, or a report file cannot be written,
    [generate_forensic_report] raises (it has no handler) and the store is
    as before: no report file, not even the JSON one, is written. *)
Theorem generate_report_fails_cleanly
    (extraction_data : pydict) (scenario_data : option pydict) (w : world) :
  is_dict (dict_get extraction_data "device_info" (PDict [])) = false \/
  reports_dir_ok w = false \/ reports_writable w = false ->
  generate_forensic_report extraction_data scenario_data w =
  (Raise
     (if is_dict (dict_get extraction_data "device_info" (PDict []))
      then if reports_dir_ok w
           then PermissionError
                  (report_path ("FR-" ++ strftime_compact (now w)) ".json")
           else PermissionError reports_dir
      else AttributeError "get"),
   w).
Proof.
  intros H.
  unfold generate_forensic_report.
  cbv beta iota zeta delta [bind lift ret datetime_now extract_timeline_data].
  destruct (dict_get extraction_data "device_info" (PDict []))
    as [| | | | | device_info]; try reflexivity.
  cbn [is_dict] in *. cbv beta iota delta [py_get].
  destruct H as [H | H]; [discriminate |].
  match goal with
  | |- context [save_report_files (PDict ?r) _ _] => set (report := r)
  end.
  unfold save_report_files. unfold bind at 1. unfold os_makedirs_reports.
  destruct (reports_dir_ok w) eqn:Hdir; [| reflexivity].
  destruct H as [H | H]; [discriminate |].
  rewrite !os_path_join_reports.
  unfold bind at 1. unfold write_report at 1. rewrite H. reflexivity.
Qed.

Lemma generate_report_fails_cleanly_witness :
  generate_forensic_report [("device_info", PStr "Infinix Smart 5")] None
    (bare_world ∅) =
  (Raise
     (if is_dict (dict_get [("device_info", PStr "Infinix Smart 5")]
                    "device_info" (PDict []))
      then if reports_dir_ok (bare_world ∅)
           then PermissionError
                  (report_path ("FR-" ++ strftime_compact (now (bare_world ∅)))
                     ".json")
           else PermissionError reports_dir
      else AttributeError "get"),
   bare_world ∅).
Proof.
  apply (generate_report_fails_cleanly [("device_info", PStr "Infinix Smart 5")]
           None (bare_world ∅)).
  left. reflexivity.
Defined.

(** X14.  The findings and the counts of a report can disagree.  Whatever
    the extraction data, every count of [artefacts_extracted] is 0 and the
    total the page shows is 0, also when the presence flags make the same
    report say Oui for what was found. *)
Theorem artefact_counts_always_zero
    (extraction_data : pydict) (scenario_data : option pydict) (w : world)
    (device_info : pydict) :
  dict_get extraction_data "device_info" (PDict []) = PDict device_info ->
  reports_dir_ok w = true ->
  reports_writable w = true ->
  exists report w1 page,
    generate_forensic_report extraction_data scenario_data w = (Ret report, w1) /\
    (forall k, In k artefact_kinds ->
       report_at report "artefacts_extracted" k = PInt 0) /\
    reports w1 !! report_path ("FR-" ++ strftime_compact (now w)) ".html"
    = Some (ReportHtml page) /\
    nth 12 page PNone = PInt 0.
Proof.
  intros Hdev Hdir Hwr.
  destruct (generate_forensic_report_run extraction_data scenario_data w
              device_info Hdev Hdir Hwr)
    as (report & page & Hgen & _ & Htotal & _ & _ & _ & _ & _ & Hzero).
  exists report. do 2 eexists. split; [exact Hgen |].
  split; [exact Hzero |]. split; [| exact Htotal].
  unfold stored. cbn [reports set_reports]. apply lookup_insert_eq.
Qed.

Lemma artefact_counts_always_zero_witness :
  exists report w1 page,
    generate_forensic_report latest_extraction_data None (bare_world ∅)
    = (Ret report, w1) /\
    (forall k, In k artefact_kinds ->
       report_at report "artefacts_extracted" k = PInt 0) /\
    reports w1
      !! report_path ("FR-" ++ strftime_compact (now (bare_world ∅))) ".html"
    = Some (ReportHtml page) /\
    nth 12 page PNone = PInt 0.
Proof.
  apply (artefact_counts_always_zero latest_extraction_data None (bare_world ∅)
           [("device_model", PStr "Infinix Smart 5");
            ("android_version", PStr "Android 11");
            ("manufacturer", PStr "Infinix")]); reflexivity.
Defined.

(** X15.  [save_report_files] does not write all or nothing.  The JSON
    file is written before the page is made: when the report lacks a field
    the template reads, the call raises and the JSON file stays stored,
    without its page. *)
Theorem save_report_files_not_atomic
    (report : pyval) (id : string) (w : world) (e : exn) :
  reports_dir_ok w = true ->
  reports_writable w = true ->
  fst (generate_html_report report w) = Raise e ->
  save_report_files report id w =
  (Raise e,
   set_reports
     (<[os_path_join reports_dir (id ++ ".json") := ReportJson report]> (reports w))
     w).
Proof.
  intros Hdir Hwr Hpage. unfold save_report_files.
  unfold bind at 1. unfold os_makedirs_reports. rewrite Hdir.
  unfold bind at 1. unfold write_report at 1. rewrite Hwr.
  unfold bind at 1.
  rewrite (generate_html_report_clock report w) by reflexivity.
  rewrite Hpage. reflexivity.
Qed.

Lemma save_report_files_not_atomic_witness :
  save_report_files (PDict [("report_id", PStr "FR-1")]) "FR-1" (bare_world ∅) =
  (Raise (KeyError "generation_date"),
   set_reports
     (<[os_path_join reports_dir ("FR-1" ++ ".json")
        := ReportJson (PDict [("report_id", PStr "FR-1")])]>
        (reports (bare_world ∅)))
     (bare_world ∅)).
Proof.
  apply (save_report_files_not_atomic (PDict [("report_id", PStr "FR-1")]) "FR-1"
           (bare_world ∅) (KeyError "generation_date")); reflexivity.
Defined.

(** ** The paths a response gives *)

Lemma no_c_app (a b : string) : no_c (a ++ b) = no_c a && no_c b.
Proof.
  induction a as [| ch a IH]; [reflexivity |].
  simpl. now rewrite IH, andb_assoc.
Qed.

Lemma no_c_uint (d : Decimal.uint) : no_c (NilEmpty.string_of_uint d) = true.
Proof. induction d; cbn; auto. Qed.

Lemma no_c_str_of_Z (n : Z) : no_c (str_of_Z n) = true.
Proof.
  unfold str_of_Z, NilZero.string_of_int, NilZero.string_of_uint.
  destruct (Z.to_int n) as [d | d]; [| cbn [no_c Ascii.eqb]];
    destruct d; try reflexivity; cbn; auto using no_c_uint.
Qed.

Lemma no_c_zeros (k : nat) :
  no_c (string_of_list_ascii (repeat "0"%char k)) = true.
Proof. induction k; cbn; auto. Qed.

Lemma no_c_pad_num (width : nat) (n : Z) : no_c (pad_num width n) = true.
Proof.
  unfold pad_num, zfill. now rewrite no_c_app, no_c_zeros, no_c_str_of_Z.
Qed.

Lemma no_c_strftime_compact (t : datetime) : no_c (strftime_compact t) = true.
Proof.
  unfold strftime_compact. now rewrite !no_c_app, !no_c_pad_num.
Qed.

Lemma str_replace_no_c (new s : string) :
  no_c s = true -> str_replace "collector/static/" new 0 s = s.
Proof.
  induction s as [| ch s IH]; [reflexivity |].
  cbn [no_c]. intros H. apply andb_prop in H as [Hch Hs].
  cbn [str_replace String.prefix].
  destruct (ascii_dec "c" ch) as [<- | Hne]; [discriminate |].
  now rewrite IH.
Qed.

Lemma strip_report_path (t : datetime) (ext : string) :
  no_c ext = true ->
  str_replace "collector/static/" EmptyString 0
    (report_path ("FR-" ++ strftime_compact t) ext)
  = web_path ("FR-" ++ strftime_compact t) ext.
Proof.
  intros Hext. unfold report_path, web_path.
  assert (Hx : no_c (strftime_compact t ++ ext) = true)
    by now rewrite no_c_app, no_c_strftime_compact.
  revert Hx. generalize (strftime_compact t). intros x Hx.
  simpl. now rewrite str_replace_no_c.
Qed.

(** ** The report view *)

Lemma save_report_files_eq (report : pyval) (id : string) (w : world)
    (page : list pyval) :
  reports_dir_ok w = true ->
  reports_writable w = true ->
  fst (generate_html_report report w) = Ret page ->
  let store :=
    <[report_path ("FR-" ++ id) ".html" := ReportHtml page]>
      (<[report_path ("FR-" ++ id) ".json" := ReportJson report]> (reports w)) in
  let strip p := PStr (str_replace "collector/static/" EmptyString 0 p) in
  save_report_files report ("FR-" ++ id) w =
  (Ret [("json", strip (report_path ("FR-" ++ id) ".json"));
        ("html", strip (report_path ("FR-" ++ id) ".html"));
        ("pdf",
         match store !! report_path ("FR-" ++ id) ".pdf" with
         | Some _ => strip (report_path ("FR-" ++ id) ".pdf")
         | None => PNone
         end)],
   set_reports store w).
Proof.
  intros Hdir Hwr Hpage. cbv zeta. unfold save_report_files.
  unfold bind at 1. unfold os_makedirs_reports. rewrite Hdir.
  rewrite !os_path_join_reports.
  unfold bind at 1. unfold write_report at 1. rewrite Hwr.
  unfold bind at 1.
  rewrite (generate_html_report_clock report w) by reflexivity.
  rewrite Hpage.
  unfold bind at 1. unfold write_report at 1. cbn [reports_writable set_reports].
  rewrite Hwr.
  unfold bind at 1. unfold report_exists. unfold ret.
  cbn [reports set_reports].
  match goal with
  | |- context [bool_decide (is_Some ?x)] => destruct x
  end; destruct w; reflexivity.
Qed.

Lemma stored_twice (id : string) (report : pydict) (page : list pyval)
    (w : world) :
  stored id report page (stored id report page w) = stored id report page w.
Proof.
  unfold stored, set_reports. cbn. f_equal.
  rewrite (insert_id _ (report_path id ".json")).
  - apply insert_id, lookup_insert_eq.
  - rewrite lookup_insert_ne
      by (apply not_eq_sym, report_path_ext; discriminate).
    apply lookup_insert_eq.
Qed.

(** The form fields as the view hands them to the generator. *)
Lemma generate_forensic_report_view_run (req : request) (w : world) :
  method req = "POST" ->
  reports_dir_ok w = true ->
  reports_writable w = true ->
  let id := "FR-" ++ strftime_compact (now w) in
  exists report page,
    generate_forensic_report_view req w =
    (Ret (JsonResponse 200
            [("status", PStr "success");
             ("message", PStr "Rapport généré avec succès");
             ("report_id", PStr id);
             ("files", PDict
                [("json", PStr (web_path id ".json"));
                 ("html", PStr (web_path id ".html"));
                 ("pdf",
                  match reports w !! report_path id ".pdf" with
                  | Some _ => PStr (web_path id ".pdf")
                  | None => PNone
                  end)])]),
     stored id report page w) /\
    generate_forensic_report get_latest_extraction_data
      (Some [("case_name", PStr (post_get (POST req) "case_name" "Investigation Android"));
             ("case_number", PStr (post_get (POST req) "case_number" "CS-2024-001"));
             ("incident_date", PStr (post_get (POST req) "incident_date" EmptyString));
             ("location", PStr (post_get (POST req) "location" EmptyString));
             ("description", PStr (post_get (POST req) "description" EmptyString))])
      w
    = (Ret report, stored id report page w) /\
    dict_get report "case_reference" PNone
    = PStr (post_get (POST req) "case_number" "CS-2024-001") /\
    report_at report "case_details" "case_name"
    = PStr (post_get (POST req) "case_name" "Investigation Android") /\
    (forall k, In k ["incident_date"; "location"; "description"] ->
       report_at report "case_details" k
       = PStr (post_get (POST req) k EmptyString)) /\
    (forall k src missing, In (k, src, missing) device_fields ->
       report_at report "device_information" k
       = dict_get [("device_model", PStr "Infinix Smart 5");
                   ("android_version", PStr "Android 11");
                   ("manufacturer", PStr "Infinix")] src missing).
Proof.
  intros Hpost Hdir Hwr. cbv zeta.
  unfold generate_forensic_report_view. rewrite Hpost.
  rewrite String.eqb_refl. cbv zeta.
  match goal with
  | |- context [generate_forensic_report _ (Some ?s)] => set (scenario := s)
  end.
  destruct (generate_forensic_report_run get_latest_extraction_data
              (Some scenario) w
              [("device_model", PStr "Infinix Smart 5");
               ("android_version", PStr "Android 11");
               ("manufacturer", PStr "Infinix")] eq_refl Hdir Hwr)
    as (report & page & Hgen & Hpage & _ & Hhas & Hid & Hcase & Hfields & Hdev & _).
  exists report, page.
  split; [| split; [exact Hgen |]].
  - unfold bind at 1. rewrite Hgen.
    unfold bind at 1. unfold lift, py_getitem. rewrite Hhas, Hid.
    unfold bind at 1.
    rewrite (save_report_files_eq (PDict report) (strftime_compact (now w))
               (stored ("FR-" ++ strftime_compact (now w)) report page w) page);
      [| exact Hdir | exact Hwr |].
    2: { rewrite (generate_html_report_clock _ w) by reflexivity. exact Hpage. }
    unfold ret.
    change (set_reports _ (stored ?i ?r ?p w)) with (stored i r p (stored i r p w)).
    rewrite stored_twice.
    rewrite !strip_report_path by reflexivity.
    unfold stored at 1. cbn [reports set_reports].
    repeat (rewrite lookup_insert_ne by (apply report_path_ext; discriminate)).
    reflexivity.
  - split; [exact Hcase |]. split.
    { apply (Hfields "case_name" "case_name" (PStr "Investigation Android")
               (PStr "Investigation Standard")). cbn. tauto. }
    split; [| exact Hdev].
    intros k Hin. cbn in Hin.
    destruct Hin as [<- | [<- | [<- | []]]].
    + apply (Hfields "incident_date" "incident_date" (PStr "N/A") (PStr "N/A")).
      cbn. tauto.
    + apply (Hfields "location" "location" (PStr "N/A") (PStr "N/A")).
      cbn. tauto.
    + apply (Hfields "description" "description"
               (PStr "Analyse forensique d'un appareil Android")
               (PStr "Analyse forensique standard")).
      cbn. tauto.
Qed.

(** X16.  What the report view answers to a posted form.  With the
    reports directory writable and no PDF of that name lying there, the
    answer is the success body with the report identifier and the paths of
    the JSON file and of the page below [collector/static/], the PDF being
    none (none is ever written).  The view saves the report a second time
    after the generator saved it: the store it leaves is the one the
    generator alone leaves. *)
Theorem report_view_answers (req : request) (w : world) :
  method req = "POST" ->
  reports_dir_ok w = true ->
  reports_writable w = true ->
  reports w !! report_path ("FR-" ++ strftime_compact (now w)) ".pdf" = None ->
  generate_forensic_report_view req w =
  (Ret (JsonResponse 200
          [("status", PStr "success");
           ("message", PStr "Rapport généré avec succès");
           ("report_id", PStr ("FR-" ++ strftime_compact (now w)));
           ("files", PDict
              [("json", PStr (web_path ("FR-" ++ strftime_compact (now w)) ".json"));
               ("html", PStr (web_path ("FR-" ++ strftime_compact (now w)) ".html"));
               ("pdf", PNone)])]),
   snd (generate_forensic_report get_latest_extraction_data
          (Some (form_scenario req)) w)).
Proof.
  intros Hpost Hdir Hwr Hpdf.
  destruct (generate_forensic_report_view_run req w Hpost Hdir Hwr)
    as (report & page & Hview & Hgen & _).
  fold (form_scenario req) in Hgen.
  rewrite Hview, Hgen, Hpdf. reflexivity.
Qed.

Lemma report_view_answers_witness :
  generate_forensic_report_view form_x (bare_world ∅) =
  (Ret (JsonResponse 200
          [("status", PStr "success");
           ("message", PStr "Rapport généré avec succès");
           ("report_id", PStr ("FR-" ++ strftime_compact (now (bare_world ∅))));
           ("files", PDict
              [("json", PStr (web_path ("FR-" ++ strftime_compact
                                          (now (bare_world ∅))) ".json"));
               ("html", PStr (web_path ("FR-" ++ strftime_compact
                                          (now (bare_world ∅))) ".html"));
               ("pdf", PNone)])]),
   snd (generate_forensic_report get_latest_extraction_data
          (Some (form_scenario form_x)) (bare_world ∅))).
Proof.
  apply (report_view_answers form_x (bare_world ∅)); reflexivity.
Defined.

(** X17.  What the report made from a posted form holds.  Its case
    reference and case name are the values posted, or CS-2024-001 and
    Investigation Android; incident date, location and description are the
    values posted, or the empty text: the texts the generator keeps for
    missing metadata (N/A, Investigation Standard, CS-NON-RENSEIGNE) are
    never reached from the view.  The device fields are those of the sample
    extraction, whatever was posted. *)
Theorem report_view_case_fields (req : request) (w : world) :
  method req = "POST" ->
  reports_dir_ok w = true ->
  reports_writable w = true ->
  exists report,
    reports (snd (generate_forensic_report_view req w))
      !! report_path ("FR-" ++ strftime_compact (now w)) ".json"
    = Some (ReportJson (PDict report)) /\
    dict_get report "case_reference" PNone
    = PStr (post_get (POST req) "case_number" "CS-2024-001") /\
    report_at report "case_details" "case_name"
    = PStr (post_get (POST req) "case_name" "Investigation Android") /\
    (forall k, In k ["incident_date"; "location"; "description"] ->
       report_at report "case_details" k
       = PStr (post_get (POST req) k EmptyString)) /\
    report_at report "device_information" "device_model" = PStr "Infinix Smart 5" /\
    report_at report "device_information" "android_version" = PStr "Android 11" /\
    report_at report "device_information" "manufacturer" = PStr "Infinix" /\
    report_at report "device_information" "serial_number" = PStr "N/A" /\
    report_at report "device_information" "imei" = PStr "N/A" /\
    report_at report "device_information" "storage_capacity" = PStr "N/A".
Proof.
  intros Hpost Hdir Hwr.
  destruct (generate_forensic_report_view_run req w Hpost Hdir Hwr)
    as (report & page & Hview & _ & Href & Hname & Hrest & Hdev).
  exists report. rewrite Hview. cbn [snd]. unfold stored. cbn [reports set_reports].
  split.
  { rewrite lookup_insert_ne by (apply report_path_ext; discriminate).
    apply lookup_insert_eq. }
  split; [exact Href |]. split; [exact Hname |]. split; [exact Hrest |].
  repeat split.
  - apply (Hdev "device_model" "device_model" (PStr "Inconnu")). cbn. tauto.
  - apply (Hdev "android_version" "android_version" (PStr "Inconnu")). cbn. tauto.
  - apply (Hdev "manufacturer" "manufacturer" (PStr "Inconnu")). cbn. tauto.
  - apply (Hdev "serial_number" "serial" (PStr "N/A")). cbn. tauto.
  - apply (Hdev "imei" "imei" (PStr "N/A")). cbn. tauto.
  - apply (Hdev "storage_capacity" "storage" (PStr "N/A")). cbn. tauto.
Qed.

Lemma report_view_case_fields_witness :
  exists report,
    reports (snd (generate_forensic_report_view form_x (bare_world ∅)))
      !! report_path ("FR-" ++ strftime_compact (now (bare_world ∅))) ".json"
    = Some (ReportJson (PDict report)) /\
    dict_get report "case_reference" PNone
    = PStr (post_get (POST form_x) "case_number" "CS-2024-001") /\
    report_at report "case_details" "case_name"
    = PStr (post_get (POST form_x) "case_name" "Investigation Android") /\
    (forall k, In k ["incident_date"; "location"; "description"] ->
       report_at report "case_details" k
       = PStr (post_get (POST form_x) k EmptyString)) /\
    report_at report "device_information" "device_model" = PStr "Infinix Smart 5" /\
    report_at report "device_information" "android_version" = PStr "Android 11" /\
    report_at report "device_information" "manufacturer" = PStr "Infinix" /\
    report_at report "device_information" "serial_number" = PStr "N/A" /\
    report_at report "device_information" "imei" = PStr "N/A" /\
    report_at report "device_information" "storage_capacity" = PStr "N/A".
Proof.
  apply (report_view_case_fields form_x (bare_world ∅)); reflexivity.
Defined.

(** * Further properties of the helpers *)

Lemma string_app_assoc (a b c : string) : (a ++ b) ++ c = a ++ b ++ c.
Proof.
  induction a as [| ch a IH]; [reflexivity |].
  change (String ch ((a ++ b) ++ c) = String ch (a ++ b ++ c)).
  now rewrite IH.
Qed.

Lemma fixed2_whole (n : Z) :
  0 <= n -> fixed2 n 1 = str_of_Z n ++ ".00".
Proof.
  intros Hn. unfold fixed2.
  rewrite Z.div_1_r, Z.mod_1_r.
  change (Z.ltb 1 (2 * 0) || Z.eqb (2 * 0) 1 && Z.odd (100 * n)) with false.
  cbv iota.
  replace (100 * n / 100) with n by (rewrite Z.mul_comm, Z.div_mul; lia).
  replace ((100 * n) mod 100) with 0 by (rewrite Z.mul_comm, Z.mod_mul; lia).
  reflexivity.
Qed.

(** X18.  The unit [format_file_size] prints.  A size that is not zero is
    printed in the largest unit, B to TB in steps of 1024, that is not
    above it: the number before the unit is the size over that power of
    1024, with two decimals, and it is below 1024 in every unit under TB.
    A size under 1024 is printed as its own digits followed by .00 B. *)
Theorem format_file_size_unit (n : Z) :
  0 < n < 2 ^ 53 ->
  (exists k : nat,
     (k <= 4)%nat /\
     1024 ^ Z.of_nat k <= n /\
     ((k < 4)%nat -> n < 1024 ^ Z.of_nat (S k)) /\
     format_file_size n
     = fixed2 n (1024 ^ Z.of_nat k) ++ " " ++ nth k size_units EmptyString) /\
  (n < 1024 -> format_file_size n = str_of_Z n ++ ".00 B").
Proof.
  intros [Hpos Hmax]. unfold format_file_size.
  destruct (Z.eqb_spec n 0) as [-> | _]; [lia |].
  cbn [scale_units].
  change (1024 * 1) with 1024. change (1024 * 1024) with (1024 ^ 2).
  change (1024 * 1024 ^ 2) with (1024 ^ 3). change (1024 * 1024 ^ 3) with (1024 ^ 4).
  split.
  - destruct (Z.ltb_spec n 1024) as [H1 | H1].
    { exists 0%nat. repeat split; try lia. }
    destruct (Z.ltb_spec n (1024 ^ 2)) as [H2 | H2].
    { exists 1%nat. repeat split; try lia. }
    destruct (Z.ltb_spec n (1024 ^ 3)) as [H3 | H3].
    { exists 2%nat. repeat split; try lia. }
    destruct (Z.ltb_spec n (1024 ^ 4)) as [H4 | H4].
    { exists 3%nat. repeat split; try lia. }
    exists 4%nat. repeat split; try lia.
  - intros H1. destruct (Z.ltb_spec n 1024) as [_ | ?]; [| lia].
    rewrite fixed2_whole by lia. now rewrite string_app_assoc.
Qed.

Lemma format_file_size_unit_witness :
  (exists k : nat,
     (k <= 4)%nat /\
     1024 ^ Z.of_nat k <= 1536 /\
     ((k < 4)%nat -> 1536 < 1024 ^ Z.of_nat (S k)) /\
     format_file_size 1536
     = fixed2 1536 (1024 ^ Z.of_nat k) ++ " " ++ nth k size_units EmptyString) /\
  (1536 < 1024 -> format_file_size 1536 = str_of_Z 1536 ++ ".00 B").
Proof.
  apply (format_file_size_unit 1536). lia.
Defined.

(** ** Audio types *)

Lemma str_endswith_both (s a b : string) :
  str_endswith s a = true -> str_endswith s b = true ->
  str_endswith a b = true \/ str_endswith b a = true.
Proof.
  induction s as [| c s IH]; cbn [str_endswith].
  - rewrite !orb_false_r. intros Ha Hb.
    apply String.eqb_eq in Ha. subst a. left.
    cbn [str_endswith]. now rewrite Hb.
  - intros Ha Hb.
    apply orb_prop in Ha as [Ha | Ha].
    + apply String.eqb_eq in Ha. subst a. left.
      cbn [str_endswith]. apply orb_prop in Hb as [-> | ->];
        [reflexivity | apply orb_true_r].
    + apply orb_prop in Hb as [Hb | Hb].
      * apply String.eqb_eq in Hb. subst b. right.
        cbn [str_endswith]. rewrite Ha. apply orb_true_r.
      * auto.
Qed.

Lemma str_endswith_apart (s a b : string) :
  str_endswith a b = false -> str_endswith b a = false ->
  str_endswith s a = true -> str_endswith s b = false.
Proof.
  intros Hab Hba Ha. destruct (str_endswith s b) eqn:Hb; [| reflexivity].
  destruct (str_endswith_both s a b Ha Hb); congruence.
Qed.

(** X19.  The audio type is decided by the extension alone, whatever the
    case of the letters of the name: no two extensions of the table can end
    the same name, so the order of the tests of [get_audio_mime_type] plays
    no part, and a name that ends in an extension of the table gets the
    type the table gives for it. *)
Theorem audio_mime_by_extension (filename ext mime : string) :
  In (ext, mime) audio_types ->
  str_endswith (str_lower filename) ext = true ->
  get_audio_mime_type filename = mime.
Proof.
  intros Hin Hext. unfold get_audio_mime_type. cbv zeta.
  cbn in Hin.
  repeat (destruct Hin as [Hin | Hin];
    [injection Hin as <- <-;
     repeat match goal with
       | He : str_endswith ?s ?a = true |- context [str_endswith ?s ?b] =>
           first [ rewrite He
                 | rewrite (str_endswith_apart s a b eq_refl eq_refl He) ]
       end;
     reflexivity |]).
  contradiction.
Qed.

Lemma audio_mime_by_extension_witness :
  get_audio_mime_type "Enregistrement 012.M4A" = "audio/mp4".
Proof.
  apply (audio_mime_by_extension "Enregistrement 012.M4A" ".m4a" "audio/mp4").
  - cbn. tauto.
  - reflexivity.
Defined.
